(** * Metrics-instrumented proxy in front of an MLflow scoring server

    Shallow embedding of [prometheus_exporter.py] (the [/invocations] proxy
    and its [/health] prober) and of [3.prometheus_exporter.py] (the
    [/predict] variant), followed by the properties of the forwarding path.

    A handler is a computation in a small state-and-exception monad.  The
    state holds the process-wide metric registry and the chronological list
    of the effects performed so far.  Whatever the outside world decides (the
    request body, the answer of the upstream, the readings of the clock) is
    an argument of the handler; what the handler sends out is recorded with
    the effect. *)

From Stdlib Require Import QArith DecimalString.
From stdpp Require Import gmap strings list.

Local Close Scope Q_scope.
Local Open Scope string_scope.
Local Open Scope list_scope.
Local Open Scope Z_scope.

(** ** Python values *)

Abbreviation bytes := (list Byte.byte).

(** Headers are looked up by lower-cased name, as [httpx.Headers] and
    Starlette's [Headers] do. *)
Abbreviation Headers := (gmap string string).

(** [h.get(key, default)] *)
Definition headers_get (h : Headers) (key default_ : string) : string :=
  default default_ (h !! key).

(** [str(n)] for an [int]. *)
Definition str (n : Z) : string := NilZero.string_of_int (Z.to_int n).

(** [s.replace(old, new)] for a non-empty [old]: occurrences are replaced from
    left to right and do not overlap.  [skip] counts the characters of a
    matched occurrence that are still to be dropped. *)
Fixpoint replace_from (old new : string) (skip : nat) (s : string) : string :=
  match s with
  | EmptyString => EmptyString
  | String c rest =>
      match skip with
      | S k => replace_from old new k rest
      | O =>
          if String.prefix old s
          then new +:+ replace_from old new (Nat.pred (String.length old)) rest
          else String c (replace_from old new O rest)
      end
  end.

Definition replace (s old new : string) : string := replace_from old new O s.

(** [old] occurs somewhere in [s]. *)
Fixpoint contains (old s : string) : bool :=
  String.prefix old s
  || match s with
     | EmptyString => false
     | String _ rest => contains old rest
     end.

(** A [str] is kept as the bytes of its UTF-8 encoding.  The bytes from 128
    to 191 continue a character; every other byte starts one. *)
Definition is_continuation (c : Ascii.ascii) : bool :=
  (128 <=? Ascii.N_of_ascii c)%N && (Ascii.N_of_ascii c <? 192)%N.

(** The bits that the first byte of a character gives to its code point. *)
Definition lead_bits (b : N) : N :=
  if (b <? 128)%N then b
  else if (b <? 224)%N then (b - 192)%N
  else if (b <? 240)%N then (b - 224)%N
  else (b - 240)%N.

(** The code points of [s]; [acc] holds those read so far, the last one,
    still being read, first. *)
Fixpoint code_points_from (s : string) (acc : list N) : list N :=
  match s with
  | EmptyString => rev acc
  | String c rest =>
      if is_continuation c
      then match acc with
           | cp :: done =>
               code_points_from rest ((cp * 64 + (Ascii.N_of_ascii c - 128))%N :: done)
           | [] => code_points_from rest [Ascii.N_of_ascii c]
           end
      else code_points_from rest (lead_bits (Ascii.N_of_ascii c) :: acc)
  end.

Definition code_points (s : string) : list N := code_points_from s [].

(** [s[:k]]: the first [k] characters of [s]. *)
Fixpoint take_chars (k : nat) (s : string) : string :=
  match s with
  | EmptyString => EmptyString
  | String c rest =>
      if is_continuation c then String c (take_chars k rest)
      else match k with
           | O => EmptyString
           | S k' => String c (take_chars k' rest)
           end
  end.

(** [s.lower()], on the letters A to Z. *)
Fixpoint lower (s : string) : string :=
  match s with
  | EmptyString => EmptyString
  | String c rest =>
      let b := Ascii.N_of_ascii c in
      String (if (65 <=? b)%N && (b <=? 90)%N then Ascii.ascii_of_N (b + 32) else c)
        (lower rest)
  end.

(** [n] in [width] hexadecimal digits. *)
Fixpoint hex (width : nat) (n : N) : string :=
  match width with
  | O => EmptyString
  | S w =>
      hex w (n / 16)
      +:+ String (default Ascii.zero
                    (String.get (N.to_nat (n mod 16)) "0123456789abcdef")) EmptyString
  end.

(** A Python [float]. *)
Inductive pyfloat :=
| Number (q : Q)
| NaN
| Infinity (negative : bool).

#[local] Unset Elimination Schemes.
Inductive Json :=
| JNull
| JBool (b : bool)
| JNum (n : Z)
| JStr (s : string)
| JList (l : list Json)
| JObj (o : list (string * Json))
| JFloat (x : pyfloat).
#[local] Set Elimination Schemes.

(** [json.dumps(j, allow_nan=False)] accepts [j]: no NaN and no infinity in
    it. *)
Fixpoint json_compliant (j : Json) : bool :=
  match j with
  | JFloat (Number _) => true
  | JFloat _ => false
  | JList l => forallb json_compliant l
  | JObj o => forallb (λ kv, let '(_, v) := kv in json_compliant v) o
  | _ => true
  end.

(** ** Exceptions

    An exception is seen by the handlers through three things: the [except]
    clauses it matches, [type(e).__name__] and [str(e)]. *)

Inductive exn_kind :=
| KConnect        (* httpx.ConnectError *)
| KTimeout        (* httpx.TimeoutException, requests.exceptions.Timeout *)
| KException      (* any other subclass of Exception *)
| KBaseException. (* outside Exception: CancelledError, KeyboardInterrupt *)

Record exn := {
  kind : exn_kind;
  type_name : string;   (* type(e).__name__ *)
  message : string      (* str(e) *)
}.

Definition isinstance_ConnectError (e : exn) : bool :=
  match kind e with KConnect => true | _ => false end.

Definition isinstance_Timeout (e : exn) : bool :=
  match kind e with KTimeout => true | _ => false end.

Definition isinstance_Exception (e : exn) : bool :=
  match kind e with KBaseException => false | _ => true end.

Inductive outcome (A : Type) :=
| Return (a : A)
| Raise (e : exn).
Arguments Return {A} a.
Arguments Raise {A} e.

(** [s.encode("latin-1")] succeeds: no character of [s] is above 255. *)
Definition latin_1 (s : string) : bool :=
  forallb (λ cp, (cp <? 256)%N) (code_points s).

(** The length of the longest prefix of [l] whose elements satisfy [p]. *)
Fixpoint span {A} (p : A → bool) (l : list A) : nat :=
  match l with
  | [] => O
  | x :: rest => if p x then S (span p rest) else O
  end.

(** The [UnicodeEncodeError] that [s.encode("latin-1")] raises otherwise: it
    names the first run of characters above 255. *)
Definition latin_1_error (s : string) : exn :=
  let start := span (λ cp, (cp <? 256)%N) (code_points s) in
  let run := drop start (code_points s) in
  let size := span (λ cp, negb (cp <? 256)%N) run in
  let what :=
    match run with
    | cp :: _ =>
        if Nat.eqb size 1
        then "character '"
             +:+ (if (cp <? 65536)%N then "\u" +:+ hex 4 cp else "\U" +:+ hex 8 cp)
             +:+ "' in position " +:+ str (Z.of_nat start)
        else "characters in position " +:+ str (Z.of_nat start)
             +:+ "-" +:+ str (Z.of_nat (start + size - 1))
    | [] => EmptyString
    end in
  {| kind := KException;
     type_name := "UnicodeEncodeError";
     message := "'latin-1' codec can't encode " +:+ what
                +:+ ": ordinal not in range(256)" |}.

(** ** The metric registry ([prometheus_client])

    A child of a metric is addressed by the metric's name and the tuple of
    its label values; [labels(...)] creates a missing child at zero.  A
    histogram child is kept as the sequence of the amounts observed, oldest
    first: its count, sum and bucket counts are functions of that sequence. *)

Abbreviation child_key := (string * list string)%type.

Record Registry := {
  counters : gmap child_key nat;
  gauges : gmap child_key Z;
  histograms : gmap child_key (list Q)
}.

Definition empty_registry : Registry :=
  {| counters := ∅; gauges := ∅; histograms := ∅ |}.

Definition counter_value (r : Registry) (name : string) (labels : list string) : nat :=
  default O (counters r !! (name, labels)).

Definition gauge_value (r : Registry) (name : string) (labels : list string) : Z :=
  default 0 (gauges r !! (name, labels)).

Definition observations (r : Registry) (name : string) (labels : list string) : list Q :=
  default [] (histograms r !! (name, labels)).

Definition reg_counter_inc (name : string) (labels : list string) (r : Registry) : Registry :=
  {| counters := <[(name, labels) := S (counter_value r name labels)]> (counters r);
     gauges := gauges r;
     histograms := histograms r |}.

Definition reg_gauge_set (name : string) (labels : list string) (v : Z) (r : Registry) : Registry :=
  {| counters := counters r;
     gauges := <[(name, labels) := v]> (gauges r);
     histograms := histograms r |}.

Definition reg_gauge_inc (name : string) (labels : list string) (r : Registry) : Registry :=
  reg_gauge_set name labels (gauge_value r name labels + 1) r.

Definition reg_gauge_dec (name : string) (labels : list string) (r : Registry) : Registry :=
  reg_gauge_set name labels (gauge_value r name labels - 1) r.

Definition reg_observe (name : string) (labels : list string) (v : Q) (r : Registry) : Registry :=
  {| counters := counters r;
     gauges := gauges r;
     histograms := <[(name, labels) := observations r name labels ++ [v]]> (histograms r) |}.

(** ** Effects *)

Inductive event :=
| EvPerfCounter                                                 (* time.perf_counter() *)
| EvInc (name : string) (labels : list string)                  (* .labels(..).inc() *)
| EvDec (name : string) (labels : list string)                  (* .labels(..).dec() *)
| EvSet (name : string) (labels : list string) (v : Z)          (* .labels(..).set(v) *)
| EvObserve (name : string) (labels : list string) (v : Q)      (* .labels(..).observe(v) *)
| EvReadBody                                                    (* await request.body() / request.json() *)
| EvPost (url : string) (content : bytes) (headers : Headers)   (* client.post(url, content=.., headers=..) *)
| EvPostJson (url : string) (payload : Json)                    (* requests.post(url, json=.., timeout=30) *)
| EvGet (url : string).                                         (* client.get(url) *)

Record State := {
  registry : Registry;
  trace : list event;        (* effects performed so far, oldest first *)
  clock_reads : nat          (* number of clock readings taken so far *)
}.

Definition M (A : Type) : Type := State → outcome A * State.

#[global] Instance M_ret : MRet M := λ A a s, (Return a, s).

#[global] Instance M_bind : MBind M := λ A B f m s,
  match m s with
  | (Return a, s') => f a s'
  | (Raise e, s') => (Raise e, s')
  end.

Definition raise {A} (e : exn) : M A := λ s, (Raise e, s).

(** An [except C as e: body] clause. *)
Record except_clause (A : Type) := Except {
  matches : exn → bool;
  on_exception : exn → M A
}.
Arguments Except {A} matches on_exception.
Arguments matches {A} _ _.
Arguments on_exception {A} _ _.

Fixpoint select_clause {A} (clauses : list (except_clause A)) (e : exn) : option (M A) :=
  match clauses with
  | [] => None
  | c :: rest => if matches c e then Some (on_exception c e) else select_clause rest e
  end.

(** [try: body  except ...: ...]: the first matching clause handles the
    exception; an unmatched exception propagates. *)
Definition try_except {A} (body : M A) (clauses : list (except_clause A)) : M A := λ s,
  match body s with
  | (Return a, s') => (Return a, s')
  | (Raise e, s') =>
      match select_clause clauses e with
      | Some h => h s'
      | None => (Raise e, s')
      end
  end.

(** [try: body  finally: fin]: [fin] runs on every way out of [body], a
    [return] included, and the outcome of [body] stands unless [fin] itself
    raises. *)
Definition try_finally {A} (body : M A) (fin : M ()) : M A := λ s,
  let '(o, s') := body s in
  match fin s' with
  | (Return _, s'') => (o, s'')
  | (Raise e, s'') => (Raise e, s'')
  end.

Definition emit (ev : event) (s : State) : State :=
  {| registry := registry s; trace := trace s ++ [ev]; clock_reads := clock_reads s |}.

Definition on_registry (f : Registry → Registry) (s : State) : State :=
  {| registry := f (registry s); trace := trace s; clock_reads := clock_reads s |}.

(** [clock k] is the [k]-th reading of [time.perf_counter()]. *)
Definition perf_counter (clock : nat → Q) : M Q := λ s,
  (Return (clock (clock_reads s)),
   {| registry := registry s;
      trace := trace s ++ [EvPerfCounter];
      clock_reads := S (clock_reads s) |}).

Definition counter_inc (name : string) (labels : list string) : M () := λ s,
  (Return (), emit (EvInc name labels) (on_registry (reg_counter_inc name labels) s)).

Definition gauge_inc (name : string) (labels : list string) : M () := λ s,
  (Return (), emit (EvInc name labels) (on_registry (reg_gauge_inc name labels) s)).

Definition gauge_dec (name : string) (labels : list string) : M () := λ s,
  (Return (), emit (EvDec name labels) (on_registry (reg_gauge_dec name labels) s)).

Definition gauge_set (name : string) (labels : list string) (v : Z) : M () := λ s,
  (Return (), emit (EvSet name labels v) (on_registry (reg_gauge_set name labels v) s)).

Definition histogram_observe (name : string) (labels : list string) (v : Q) : M () := λ s,
  (Return (), emit (EvObserve name labels v) (on_registry (reg_observe name labels v) s)).

(** A call whose result the outside world decides. *)
Definition external {A} (ev : event) (result : outcome A) : M A := λ s,
  (result, emit ev s).

(** ** Responses written back to the caller ([fastapi]) *)

Module fastapi.

Inductive Content :=
| Bytes (b : bytes)
| Text (s : string)
| JSON (j : Json).

Record Response := {
  content : Content;
  status_code : Z;
  media_type : string
}.

Definition PlainTextResponse (text : string) (code : Z) : Response :=
  {| content := Text text; status_code := code; media_type := "text/plain" |}.

Definition JSONResponse (code : Z) (j : Json) : Response :=
  {| content := JSON j; status_code := code; media_type := "application/json" |}.

(** The content type written in the headers for a media type: a text type
    that names no charset gets "; charset=utf-8". *)
Definition content_type_of (media_type : string) : string :=
  if String.prefix "text/" media_type && negb (contains "charset=" (lower media_type))
  then media_type +:+ "; charset=utf-8"
  else media_type.

(** The content type the caller reads in the headers of [resp]. *)
Definition content_type (resp : Response) : string :=
  content_type_of (media_type resp).

(** [Response(content=.., status_code=.., media_type=..)]: the headers are
    built with the object, and the content type is encoded in latin-1. *)
Definition new_Response (content : Content) (code : Z) (media_type : string)
  : M Response := λ s,
  if latin_1 (content_type_of media_type)
  then (Return {| content := content; status_code := code; media_type := media_type |}, s)
  else (Raise (latin_1_error (content_type_of media_type)), s).

(** What [json.dumps(j, allow_nan=False)] raises on a NaN or an infinity. *)
Definition out_of_range_float : exn :=
  {| kind := KException;
     type_name := "ValueError";
     message := "Out of range float values are not JSON compliant" |}.

(** [JSONResponse(status_code=.., content=j)] for a [j] that is not known in
    advance: the body is rendered with the object. *)
Definition new_JSONResponse (code : Z) (j : Json) : M Response := λ s,
  if json_compliant j
  then (Return (JSONResponse code j), s)
  else (Raise out_of_range_float, s).

End fastapi.

(** ** [prometheus_exporter.py] *)

Module httpx.

Record Response := {
  status_code : Z;
  content : bytes;
  headers : Headers
}.

End httpx.

Module Exporter.

Record Config := {
  MLFLOW_SCORING_URL : string;
  MODEL_NAME : string;
  MODEL_VERSION : string
}.

(** The values taken when the environment variables are unset. *)
Definition default_config : Config :=
  {| MLFLOW_SCORING_URL := "http://127.0.0.1:5001/invocations";
     MODEL_NAME := "creditscoring";
     MODEL_VERSION := "e62a3c7b79ff4917b875b53f82e4665e" |}.

Definition REQ_TOTAL := "inference_requests_total".
Definition REQ_ERRORS := "inference_request_errors_total".
Definition REQ_LATENCY := "inference_request_latency_seconds".
Definition INPROGRESS := "inference_requests_inprogress".
Definition UPSTREAM_UP := "mlflow_upstream_up".
Definition PAYLOAD_BYTES := "inference_payload_bytes".

Definition _is_2xx (code : Z) : bool := (200 <=? code) && (code <? 300).

Record Request := {
  body : outcome bytes;     (* what [await request.body()] gives *)
  headers : Headers
}.

Section handlers.

Variable cfg : Config.
Variable clock : nat → Q.
(** What the one call made on the pooled client while this request is
    handled ([client.get] in [health], [client.post] in [invocations])
    gives. *)
Variable answer : outcome httpx.Response.

Let model := [MODEL_NAME cfg; MODEL_VERSION cfg].

Definition health : M Json :=
  try_except
    (r ← external (EvGet (replace (MLFLOW_SCORING_URL cfg) "/invocations" "/")) answer;
     gauge_set UPSTREAM_UP model 1;;
     mret (JObj [("status", JStr "ok"); ("upstream", JStr "reachable");
                 ("code", JNum (httpx.status_code r))]))
    [Except isinstance_Exception (λ _,
       gauge_set UPSTREAM_UP model 0;;
       mret (JObj [("status", JStr "degraded"); ("upstream", JStr "unreachable")]))].

(** The body of [except httpx.ConnectError:]. *)
Definition on_connect_error (start : Q) : M fastapi.Response :=
  now ← perf_counter clock;
  let latency := (now - start)%Q in
  histogram_observe REQ_LATENCY model latency;;
  counter_inc REQ_TOTAL (model ++ ["502"]);;
  counter_inc REQ_ERRORS (model ++ ["connect_error"]);;
  gauge_set UPSTREAM_UP model 0;;
  mret (fastapi.PlainTextResponse "Upstream MLflow server unreachable" 502).

(** The body of [except Exception as e:]. *)
Definition on_other_exception (start : Q) (e : exn) : M fastapi.Response :=
  now ← perf_counter clock;
  let latency := (now - start)%Q in
  histogram_observe REQ_LATENCY model latency;;
  counter_inc REQ_TOTAL (model ++ ["500"]);;
  counter_inc REQ_ERRORS (model ++ ["unexpected_exception"]);;
  mret (fastapi.PlainTextResponse ("Internal proxy error: " +:+ type_name e) 500).

Definition invocations (request : Request) : M fastapi.Response :=
  start ← perf_counter clock;
  gauge_inc INPROGRESS model;;
  body ← external EvReadBody (body request);
  histogram_observe PAYLOAD_BYTES model (inject_Z (Z.of_nat (length body)));;
  let headers : Headers :=
    {[ "Content-Type" := headers_get (headers request) "content-type" "application/json" ]} in
  try_finally
    (try_except
       (r ← external (EvPost (MLFLOW_SCORING_URL cfg) body headers) answer;
        now ← perf_counter clock;
        let latency := (now - start)%Q in
        histogram_observe REQ_LATENCY model latency;;
        counter_inc REQ_TOTAL (model ++ [str (httpx.status_code r)]);;
        (if negb (_is_2xx (httpx.status_code r))
         then counter_inc REQ_ERRORS (model ++ ["upstream_non_2xx"])
         else mret ());;
        fastapi.new_Response (fastapi.Bytes (httpx.content r)) (httpx.status_code r)
          (headers_get (httpx.headers r) "content-type" "application/json"))
       [Except isinstance_ConnectError (λ _, on_connect_error start);
        Except isinstance_Exception (λ e, on_other_exception start e)])
    (gauge_dec INPROGRESS model).

End handlers.

End Exporter.


(** ** [3.prometheus_exporter.py] *)

Module requests.

Record Response := {
  status_code : Z;
  text : string;
  json : outcome Json     (* what [resp.json()] gives *)
}.

(** [resp.ok]: [raise_for_status()] does not raise, which it does for the
    codes from 400 up to 599. *)
Definition ok (r : Response) : bool :=
  negb ((400 <=? status_code r) && (status_code r <? 600)).

End requests.

Module Exporter3.

Record Config := {
  MLFLOW_INVOCATIONS_URL : string
}.

Definition default_config : Config :=
  {| MLFLOW_INVOCATIONS_URL := "http://127.0.0.1:5002/invocations" |}.

Definition HTTP_REQUESTS_TOTAL := "http_requests_total".
Definition HTTP_REQUEST_ERRORS_TOTAL := "http_request_errors_total".
Definition REQUEST_LATENCY_SECONDS := "request_latency_seconds".
Definition MODEL_PREDICTIONS_TOTAL := "model_predictions_total".

Record Request := {
  json : outcome Json      (* what [await request.json()] gives *)
}.

Definition error_body (msg : string) : list (string * Json) :=
  [("status", JStr "error"); ("message", JStr msg)].

Section handlers.

Variable cfg : Config.
Variable clock : nat → Q.
(** What [requests.post], called at most once per request, gives. *)
Variable answer : outcome requests.Response.

Definition health : Json :=
  JObj [("status", JStr "ok");
        ("mlflow_invocations_url", JStr (MLFLOW_INVOCATIONS_URL cfg))].

(** The second [try] statement of [predict], reached with a parsed
    payload. *)
Definition forward (endpoint method : string) (start : Q) (payload : Json)
  : M fastapi.Response :=
  try_except
    (resp ← external (EvPostJson (MLFLOW_INVOCATIONS_URL cfg) payload) answer;
     now ← perf_counter clock;
     histogram_observe REQUEST_LATENCY_SECONDS [endpoint; method] (now - start)%Q;;
     counter_inc HTTP_REQUESTS_TOTAL [endpoint; method; str (requests.status_code resp)];;
     if requests.ok resp
     then
       counter_inc MODEL_PREDICTIONS_TOTAL ["success"];;
       try_except
         (j ← (λ s, (requests.json resp, s)) : M Json;
          fastapi.new_JSONResponse 200 j)
         [Except isinstance_Exception (λ _,
            mret (fastapi.JSONResponse 200 (JObj [("result", JStr (requests.text resp))])))]
     else
       counter_inc MODEL_PREDICTIONS_TOTAL ["failed"];;
       counter_inc HTTP_REQUEST_ERRORS_TOTAL [endpoint; method; "mlflow_non_2xx"];;
       mret (fastapi.JSONResponse 502
               (JObj (error_body "Upstream MLflow non-2xx"
                      ++ [("upstream_status", JNum (requests.status_code resp));
                          ("upstream_body", JStr (requests.text resp))]))))
    [Except isinstance_Timeout (λ _,
       now ← perf_counter clock;
       histogram_observe REQUEST_LATENCY_SECONDS [endpoint; method] (now - start)%Q;;
       counter_inc HTTP_REQUESTS_TOTAL [endpoint; method; "504"];;
       counter_inc HTTP_REQUEST_ERRORS_TOTAL [endpoint; method; "timeout"];;
       counter_inc MODEL_PREDICTIONS_TOTAL ["failed"];;
       mret (fastapi.JSONResponse 504 (JObj (error_body "Timeout to MLflow invocations"))));
     Except isinstance_Exception (λ e,
       now ← perf_counter clock;
       histogram_observe REQUEST_LATENCY_SECONDS [endpoint; method] (now - start)%Q;;
       counter_inc HTTP_REQUESTS_TOTAL [endpoint; method; "500"];;
       counter_inc HTTP_REQUEST_ERRORS_TOTAL [endpoint; method; "exception"];;
       counter_inc MODEL_PREDICTIONS_TOTAL ["failed"];;
       mret (fastapi.JSONResponse 500 (JObj (error_body (message e)))))].

(** The first [try] statement either binds [payload] or returns early. *)
Definition predict (request : Request) : M fastapi.Response :=
  let endpoint := "/predict" in
  let method := "POST" in
  start ← perf_counter clock;
  parsed ← try_except
    (payload ← external EvReadBody (json request);
     mret (inl payload))
    [Except isinstance_Exception (λ e,
       counter_inc HTTP_REQUEST_ERRORS_TOTAL [endpoint; method; "invalid_json"];;
       counter_inc HTTP_REQUESTS_TOTAL [endpoint; method; "400"];;
       mret (inr (fastapi.JSONResponse 400
                    (JObj (error_body ("Invalid JSON: " +:+ message e))))))];
  match parsed with
  | inl payload => forward endpoint method start payload
  | inr early => mret early
  end.

End handlers.

End Exporter3.

(** ** [Inference.py] *)

Module Inference.

(** The parsed command line. *)
Record Args := {
  exporter_url : string;
  n : Z;
  sleep : pyfloat
}.

Definition default_args : Args :=
  {| exporter_url := "http://127.0.0.1:8000/invocations";
     n := 30;
     sleep := Number (1 # 10)%Q |}.

(** What the script does that can be seen from outside, oldest first. *)
Inductive output :=
| Posted (url : string) (payload : Json)   (* requests.post(url, json=payload, timeout=15) *)
| Printed (line : string)                  (* print(line) *)
| Slept (seconds : pyfloat)                (* time.sleep(seconds) *)
| PrintedJson (j : Json).                  (* print(json.dumps(j, indent=2)) *)

Record Tally := {
  ok : Z;
  fail : Z;
  out : list output
}.

(** What the outside world gives to one turn of the [for] loop. *)
Record Turn := {
  record : Json;                         (* what make_record() drew *)
  answer : outcome requests.Response;    (* what requests.post gives *)
  shown : outcome ();                    (* what print gives inside the try *)
  reported : outcome ()                  (* what print gives inside the except clause *)
}.

(** [time.sleep(secs)] (CPython 3.11): the seconds are first converted to
    whole nanoseconds in 64 bits, then checked for their sign. *)
Definition time_sleep (secs : pyfloat) : outcome () :=
  match secs with
  | NaN =>
      Raise {| kind := KException; type_name := "ValueError";
               message := "Invalid value NaN (not a number)" |}
  | Infinity _ =>
      Raise {| kind := KException; type_name := "OverflowError";
               message := "timestamp too large to convert to C _PyTime_t" |}
  | Number q =>
      if Qle_bool (inject_Z (- 2 ^ 63)) (q * inject_Z (10 ^ 9))
         && Qle_bool (q * inject_Z (10 ^ 9)) (inject_Z (2 ^ 63))
      then if Qle_bool 0 q
           then Return ()
           else Raise {| kind := KException; type_name := "ValueError";
                         message := "sleep length must be non-negative" |}
      else Raise {| kind := KException; type_name := "OverflowError";
                    message := "timestamp too large to convert to C _PyTime_t" |}
  end.

(** One turn of the [for] loop: the [try] statement, then [time.sleep]. *)
Definition iteration (args : Args) (i : nat) (turn : Turn) (t : Tally)
  : outcome () * Tally :=
  let payload := JObj [("dataframe_records", JList [record turn])] in
  let posted := out t ++ [Posted (exporter_url args) payload] in
  let tag := "[" +:+ str (Z.of_nat i + 1) +:+ "/" +:+ str (n args) +:+ "] " in
  (* try: *)
  let tried : outcome () * Tally :=
    match answer turn with
    | Return r =>
        let counted :=
          {| ok := if requests.ok r then ok t + 1 else ok t;
             fail := if requests.ok r then fail t else fail t + 1;
             out := posted |} in
        let line := tag +:+ "status=" +:+ str (requests.status_code r)
                    +:+ " body=" +:+ take_chars 200 (requests.text r) in
        match shown turn with
        | Return _ =>
            (Return (),
             {| ok := ok counted; fail := fail counted;
                out := posted ++ [Printed line] |})
        | Raise e => (Raise e, counted)
        end
    | Raise e => (Raise e, {| ok := ok t; fail := fail t; out := posted |})
    end in
  (* except Exception as e: *)
  let handled : outcome () * Tally :=
    match tried with
    | (Return _, t1) => (Return (), t1)
    | (Raise e, t1) =>
        if isinstance_Exception e
        then match reported turn with
             | Return _ =>
                 (Return (),
                  {| ok := ok t1; fail := fail t1 + 1;
                     out := out t1 ++ [Printed (tag +:+ "EXCEPTION: " +:+ message e)] |})
             | Raise e' =>
                 (Raise e', {| ok := ok t1; fail := fail t1 + 1; out := out t1 |})
             end
        else (Raise e, t1)
    end in
  (* time.sleep(args.sleep) *)
  match handled with
  | (Return _, t2) =>
      match time_sleep (sleep args) with
      | Return _ =>
          (Return (),
           {| ok := ok t2; fail := fail t2; out := out t2 ++ [Slept (sleep args)] |})
      | Raise e => (Raise e, t2)
      end
  | (Raise e, t2) => (Raise e, t2)
  end.

(** [for i in indices: ...] *)
Fixpoint loop (args : Args) (turns : nat → Turn) (indices : list nat) (t : Tally)
  : outcome () * Tally :=
  match indices with
  | [] => (Return (), t)
  | i :: rest =>
      match iteration args i (turns i) t with
      | (Return _, t') => loop args turns rest t'
      | (Raise e, t') => (Raise e, t')
      end
  end.

(** [range(n)] *)
Definition range (n : Z) : list nat := seq 0 (Z.to_nat n).

Definition main (args : Args) (turns : nat → Turn) : outcome () * Tally :=
  match loop args turns (range (n args)) {| ok := 0; fail := 0; out := [] |} with
  | (Return _, t) =>
      (Return (),
       {| ok := ok t;
          fail := fail t;
          out := out t ++ [PrintedJson (JObj [("ok", JNum (ok t)); ("fail", JNum (fail t))])] |})
  | (Raise e, t) => (Raise e, t)
  end.

End Inference.

(** ** Vocabulary of the properties *)

(** What a computation started in [s] returns or raises, the state it leaves,
    and the effects it performs, oldest first. *)
Definition result_of {A} (m : M A) (s : State) : outcome A := (m s).1.

Definition state_after {A} (m : M A) (s : State) : State := (m s).2.

Definition effects_of {A} (m : M A) (s : State) : list event :=
  drop (length (trace s)) (trace (state_after m s)).

(** The metric an effect acts on, if any. *)
Definition metric_of (ev : event) : option string :=
  match ev with
  | EvInc name _ | EvDec name _ | EvSet name _ _ | EvObserve name _ _ => Some name
  | EvPerfCounter | EvReadBody | EvPost _ _ _ | EvPostJson _ _ | EvGet _ => None
  end.

Definition touches (name : string) (ev : event) : bool :=
  bool_decide (metric_of ev = Some name).

(** The effects of [evs] that act on the metric [name], and the metrics that
    [evs] acts on, both in order. *)
Definition effects_on (name : string) (evs : list event) : list event :=
  List.filter (touches name) evs.

Definition touched (evs : list event) : list string :=
  omap metric_of evs.

(** The metric [name] is acted on exactly once in [evs]. *)
Definition recorded_once (name : string) (evs : list event) : Prop :=
  length (effects_on name evs) = 1%nat.

(** The child of [name] at [labels] is the same in [r] and [r'], its absence
    included. *)
Definition same_child (r r' : Registry) (name : string) (labels : list string) : Prop :=
  counters r !! (name, labels) = counters r' !! (name, labels)
  ∧ gauges r !! (name, labels) = gauges r' !! (name, labels)
  ∧ histograms r !! (name, labels) = histograms r' !! (name, labels).

(** The label values [(MODEL_NAME, MODEL_VERSION)]. *)
Definition model_labels (cfg : Exporter.Config) : list string :=
  [Exporter.MODEL_NAME cfg; Exporter.MODEL_VERSION cfg].

(** The [Response] that relays [r] can be built: the content type it is given
    encodes in latin-1. *)
Definition relayable (r : httpx.Response) : bool :=
  latin_1 (fastapi.content_type_of
             (headers_get (httpx.headers r) "content-type" "application/json")).



(** The calls that leave the process. *)
Definition is_dispatch (ev : event) : bool :=
  match ev with
  | EvPost _ _ _ | EvPostJson _ _ | EvGet _ => true
  | _ => false
  end.

Definition dispatches (evs : list event) : list event :=
  List.filter is_dispatch evs.

(** Every child of every counter is at least as high in [r'] as in [r]. *)
Definition counters_le (r r' : Registry) : Prop :=
  ∀ name labels, (counter_value r name labels ≤ counter_value r' name labels)%nat.

(** [/invocations] requests handled one after the other on the same registry,
    each with the answer its dispatch gets. *)
Definition serve (cfg : Exporter.Config) (clock : nat → Q)
    (batch : list (outcome httpx.Response * Exporter.Request)) (s : State) : State :=
  foldl (λ st item, state_after (Exporter.invocations cfg clock item.1 item.2) st) s batch.

Definition body_fault (item : outcome httpx.Response * Exporter.Request) : bool :=
  match Exporter.body item.2 with
  | Return _ => false
  | Raise _ => true
  end.

(** The upstream answers this request with the status [code], in a response
    that can be relayed. *)
Definition answered_with (code : Z) (item : outcome httpx.Response * Exporter.Request) : Prop :=
  (∃ b, Exporter.body item.2 = Return b)
  ∧ ∃ r, item.1 = Return r ∧ httpx.status_code r = code ∧ relayable r = true.

(** [old] occurs in [s] at one of the first [k] positions. *)
Fixpoint occurs_before (k : nat) (old s : string) : bool :=
  match k with
  | O => false
  | S k' =>
      String.prefix old s
      || match s with
         | EmptyString => false
         | String _ rest => occurs_before k' old rest
         end
  end.

(** The turns of the load generator's loop that got an [ok] response. *)
Definition succeeded (turns : nat → Inference.Turn) (i : nat) : bool :=
  match Inference.answer (turns i) with
  | Return r => requests.ok r
  | Raise _ => false
  end.

(** A turn in which the call returns or raises an [Exception], and the line
    that follows is printed. *)
Definition plain (turn : Inference.Turn) : Prop :=
  (∀ e, Inference.answer turn = Raise e → isinstance_Exception e = true)
  ∧ Inference.shown turn = Return ()
  ∧ Inference.reported turn = Return ().

Definition is_posted (o : Inference.output) : bool :=
  match o with
  | Inference.Posted _ _ => true
  | _ => false
  end.

(** ** Concrete worlds *)

Definition s0 : State :=
  {| registry := empty_registry; trace := []; clock_reads := O |}.

(** The [k]-th reading of the clock is [k] seconds. *)
Definition clock0 (k : nat) : Q := inject_Z (Z.of_nat k).

Definition payload0 : bytes := String.list_byte_of_string "[[1, 2, 3]]".

Definition request0 : Exporter.Request :=
  {| Exporter.body := Return payload0;
     Exporter.headers := {[ "content-type" := "application/json" ]} |}.

Definition client_disconnect : exn :=
  {| kind := KException; type_name := "ClientDisconnect"; message := "" |}.

Definition request_disconnected : Exporter.Request :=
  {| Exporter.body := Raise client_disconnect;
     Exporter.headers := {[ "content-type" := "application/json" ]} |}.

Definition connection_refused : exn :=
  {| kind := KConnect; type_name := "ConnectError";
     message := "[Errno 111] Connection refused" |}.

Definition read_timeout : exn :=
  {| kind := KTimeout; type_name := "ReadTimeout"; message := "timed out" |}.




Definition prediction_200 : httpx.Response :=
  {| httpx.status_code := 200;
     httpx.content := String.list_byte_of_string "[0]";
     httpx.headers := {[ "content-type" := "application/json" ]} |}.




Definition upstream3_200 : requests.Response :=
  {| requests.status_code := 200;
     requests.text := "[0]";
     requests.json := Return (JList [JNum 0]) |}.

Definition upstream3_404 : requests.Response :=
  {| requests.status_code := 404;
     requests.text := "no such route";
     requests.json := Raise {| kind := KException; type_name := "JSONDecodeError";
                               message := "Expecting value: line 1 column 1 (char 0)" |} |}.

(** No connection within the connect timeout of five seconds. *)
Definition connect_timeout : exn :=
  {| kind := KTimeout; type_name := "ConnectTimeout"; message := "timed out" |}.

(** A response whose content type has characters above 255. *)
Definition unencodable_200 : httpx.Response :=
  {| httpx.status_code := 200;
     httpx.content := String.list_byte_of_string "[0]";
     httpx.headers := {[ "content-type" := "application/json; note=予測" ]} |}.

(** A response whose JSON body holds a NaN. *)
Definition upstream3_nan : requests.Response :=
  {| requests.status_code := 200;
     requests.text := "[NaN]";
     requests.json := Return (JList [JFloat NaN]) |}.

Definition keyboard_interrupt : exn :=
  {| kind := KBaseException; type_name := "KeyboardInterrupt"; message := "" |}.

Definition json_decode_error : exn :=
  {| kind := KException; type_name := "JSONDecodeError";
     message := "Expecting value: line 1 column 1 (char 0)" |}.

Definition request3_invalid : Exporter3.Request :=
  {| Exporter3.json := Raise json_decode_error |}.


(** A scoring server whose path is not "/invocations". *)
Definition config_score : Exporter.Config :=
  {| Exporter.MLFLOW_SCORING_URL := "http://mlflow:5001/score";
     Exporter.MODEL_NAME := "creditscoring";
     Exporter.MODEL_VERSION := "1" |}.

(** Three requests: a 200, a refused connection, a 200. *)
Definition batch0 : list (outcome httpx.Response * Exporter.Request) :=
  [(Return prediction_200, request0);
   (Raise connection_refused, request0);
   (Return prediction_200, request0)].

Definition batch_200 : list (outcome httpx.Response * Exporter.Request) :=
  [(Return prediction_200, request0); (Return prediction_200, request0)].

(** The exporter answers 200 to the even turns and 404 to the odd ones. *)
Definition turns0 (i : nat) : Inference.Turn :=
  {| Inference.record := JNull;
     Inference.answer := if Nat.even i then Return upstream3_200 else Return upstream3_404;
     Inference.shown := Return ();
     Inference.reported := Return () |}.

(** The same, with the call of the second turn interrupted. *)
Definition turns_interrupted (i : nat) : Inference.Turn :=
  {| Inference.record := JNull;
     Inference.answer :=
       if Nat.eqb i 1 then Raise keyboard_interrupt
       else if Nat.even i then Return upstream3_200 else Return upstream3_404;
     Inference.shown := Return ();
     Inference.reported := Return () |}.

(** A turn whose line cannot be printed. *)
Definition broken_pipe : exn :=
  {| kind := KException; type_name := "BrokenPipeError";
     message := "[Errno 32] Broken pipe" |}.

Definition turn_unprinted : Inference.Turn :=
  {| Inference.record := JNull;
     Inference.answer := Return upstream3_200;
     Inference.shown := Raise broken_pipe;
     Inference.reported := Return () |}.

Definition args3 : Inference.Args :=
  {| Inference.exporter_url := "http://127.0.0.1:8000/invocations";
     Inference.n := 3;
     Inference.sleep := Number 0 |}.

(** [--sleep -0.5] *)
Definition args_negative_sleep : Inference.Args :=
  {| Inference.exporter_url := "http://127.0.0.1:8000/invocations";
     Inference.n := 3;
     Inference.sleep := Number (- 1 # 2)%Q |}.

(** [--n -5] *)
Definition args_no_turns : Inference.Args :=
  {| Inference.exporter_url := "http://127.0.0.1:8000/invocations";
     Inference.n := -5;
     Inference.sleep := Number 0 |}.

(** * Properties *)

Example replace_default_url :
  replace (Exporter.MLFLOW_SCORING_URL Exporter.default_config) "/invocations" "/"
  = "http://127.0.0.1:5001/".
Proof. reflexivity. Qed.

Example str_502 : str 502 = "502".
Proof. reflexivity. Qed.

(** ** The registry *)

Arguments reg_counter_inc : simpl never.
Arguments reg_gauge_set : simpl never.
Arguments reg_gauge_inc : simpl never.
Arguments reg_gauge_dec : simpl never.
Arguments reg_observe : simpl never.

Section registry_lemmas.

Implicit Types (r : Registry) (n : string) (l : list string).

Lemma counter_value_inc_eq n l r :
  counter_value (reg_counter_inc n l r) n l = S (counter_value r n l).
Proof. unfold counter_value at 1, reg_counter_inc; cbn. by rewrite lookup_insert_eq. Qed.

Lemma counter_value_inc_ne n l n' l' r :
  (n, l) ≠ (n', l') →
  counter_value (reg_counter_inc n l r) n' l' = counter_value r n' l'.
Proof.
  intros Hne. unfold counter_value at 1, reg_counter_inc; cbn.
  by rewrite lookup_insert_ne.
Qed.

Lemma counter_value_gauge_set n l v n' l' r :
  counter_value (reg_gauge_set n l v r) n' l' = counter_value r n' l'.
Proof. reflexivity. Qed.

Lemma counter_value_gauge_inc n l n' l' r :
  counter_value (reg_gauge_inc n l r) n' l' = counter_value r n' l'.
Proof. reflexivity. Qed.

Lemma counter_value_gauge_dec n l n' l' r :
  counter_value (reg_gauge_dec n l r) n' l' = counter_value r n' l'.
Proof. reflexivity. Qed.

Lemma counter_value_observe n l v n' l' r :
  counter_value (reg_observe n l v r) n' l' = counter_value r n' l'.
Proof. reflexivity. Qed.

Lemma gauge_value_counter_inc n l n' l' r :
  gauge_value (reg_counter_inc n l r) n' l' = gauge_value r n' l'.
Proof. reflexivity. Qed.

Lemma gauge_value_observe n l v n' l' r :
  gauge_value (reg_observe n l v r) n' l' = gauge_value r n' l'.
Proof. reflexivity. Qed.

Lemma observations_counter_inc n l n' l' r :
  observations (reg_counter_inc n l r) n' l' = observations r n' l'.
Proof. reflexivity. Qed.

Lemma observations_gauge_set n l v n' l' r :
  observations (reg_gauge_set n l v r) n' l' = observations r n' l'.
Proof. reflexivity. Qed.

Lemma observations_gauge_inc n l n' l' r :
  observations (reg_gauge_inc n l r) n' l' = observations r n' l'.
Proof. reflexivity. Qed.

Lemma observations_gauge_dec n l n' l' r :
  observations (reg_gauge_dec n l r) n' l' = observations r n' l'.
Proof. reflexivity. Qed.

Lemma gauge_value_set_eq n l v r : gauge_value (reg_gauge_set n l v r) n l = v.
Proof. unfold gauge_value, reg_gauge_set; cbn. by rewrite lookup_insert_eq. Qed.

Lemma gauge_value_set_ne n l v n' l' r :
  (n, l) ≠ (n', l') →
  gauge_value (reg_gauge_set n l v r) n' l' = gauge_value r n' l'.
Proof.
  intros Hne. unfold gauge_value, reg_gauge_set; cbn. by rewrite lookup_insert_ne.
Qed.

Lemma gauge_value_inc_eq n l r :
  gauge_value (reg_gauge_inc n l r) n l = gauge_value r n l + 1.
Proof. apply gauge_value_set_eq. Qed.

Lemma gauge_value_inc_ne n l n' l' r :
  (n, l) ≠ (n', l') →
  gauge_value (reg_gauge_inc n l r) n' l' = gauge_value r n' l'.
Proof. apply gauge_value_set_ne. Qed.

Lemma gauge_value_dec_eq n l r :
  gauge_value (reg_gauge_dec n l r) n l = gauge_value r n l - 1.
Proof. apply gauge_value_set_eq. Qed.

Lemma gauge_value_dec_ne n l n' l' r :
  (n, l) ≠ (n', l') →
  gauge_value (reg_gauge_dec n l r) n' l' = gauge_value r n' l'.
Proof. apply gauge_value_set_ne. Qed.

Lemma observations_observe_eq n l v r :
  observations (reg_observe n l v r) n l = observations r n l ++ [v].
Proof. unfold observations at 1, reg_observe; cbn. by rewrite lookup_insert_eq. Qed.

Lemma observations_observe_ne n l v n' l' r :
  (n, l) ≠ (n', l') →
  observations (reg_observe n l v r) n' l' = observations r n' l'.
Proof.
  intros Hne. unfold observations at 1, reg_observe; cbn. by rewrite lookup_insert_ne.
Qed.

End registry_lemmas.

Create Rewrite HintDb registry.

#[local] Hint Rewrite
  counter_value_inc_eq counter_value_gauge_set counter_value_gauge_inc
  counter_value_gauge_dec counter_value_observe
  gauge_value_set_eq gauge_value_inc_eq gauge_value_dec_eq
  gauge_value_counter_inc gauge_value_observe
  observations_observe_eq observations_counter_inc observations_gauge_set
  observations_gauge_inc observations_gauge_dec : registry.

#[local] Hint Rewrite
  counter_value_inc_ne gauge_value_set_ne gauge_value_inc_ne gauge_value_dec_ne
  observations_observe_ne using (by intros [=]) : registry.

(** ** Running a handler *)

Ltac unfold_handler :=
  cbv [Exporter.invocations Exporter.on_connect_error Exporter.on_other_exception
       Exporter.health Exporter3.predict Exporter3.forward
       mbind M_bind mret M_ret raise try_finally try_except select_clause
       matches on_exception external perf_counter counter_inc gauge_inc gauge_dec
       gauge_set histogram_observe emit on_registry negb
       fastapi.new_Response fastapi.new_JSONResponse type_name
       latin_1_error fastapi.out_of_range_float
       isinstance_ConnectError isinstance_Timeout isinstance_Exception kind
       fst snd registry trace clock_reads Exporter.body Exporter.headers
       Exporter3.json].

(** Evaluate the run [m s] of a handler, along the path that the hypotheses
    on its tests and on the outcomes it matches on select. *)
Ltac evaluate_run m s :=
  let H := fresh "Hrun" in
  eassert (H : m s = _)
    by (unfold_handler;
        repeat (match goal with
                | Hc : _ = true |- _ => rewrite Hc
                | Hc : _ = false |- _ => rewrite Hc
                | Hc : _ = Return _ |- _ => rewrite Hc
                | Hc : _ = Raise _ |- _ => rewrite Hc
                end; unfold_handler);
        rewrite <- ?app_assoc; cbn [app]; reflexivity);
  unfold effects_of, result_of, state_after;
  rewrite ?H; clear H;
  cbn [fst snd registry trace clock_reads];
  rewrite ?drop_app_length.

(** Evaluate the run that the goal speaks of. *)
Ltac evaluate :=
  repeat match goal with s : State |- _ => destruct s as [? ? ?] end;
  match goal with
  | |- context [result_of ?m ?s] => evaluate_run m s
  | |- context [state_after ?m ?s] => evaluate_run m s
  | |- context [effects_of ?m ?s] => evaluate_run m s
  end.

(** Expose the maps of the registry, to compare children by lookup. *)
Ltac unfold_registry :=
  repeat match goal with r : Registry |- _ => destruct r as [? ? ?] end;
  cbv [same_child reg_counter_inc reg_gauge_set reg_gauge_inc reg_gauge_dec
       reg_observe counters gauges histograms].

(** A request whose body was read is a request record holding that body. *)
Ltac known_body H :=
  match type of H with
  | Exporter.body ?request = _ =>
      destruct request as [? ?]; cbn [Exporter.body] in H; subst
  | Exporter3.json ?request = _ =>
      destruct request as [?]; cbn [Exporter3.json] in H; subst
  end.

(** Split an exception along the [except] clauses. *)
Ltac by_kind e := destruct e as [[] ? ?]; try discriminate.

(** Split the path on which the upstream returned [r]: the status is 2xx or
    not, and the relaying [Response] can be built or not. *)
Ltac response_paths r :=
  destruct (Exporter._is_2xx (httpx.status_code r)) eqn:H2xx;
  destruct (relayable r) eqn:Hrelay; unfold relayable in Hrelay.

(** ** The in-progress gauge *)

Lemma inprogress_restored_when_body_is_read cfg clock answer request b s :
  Exporter.body request = Return b →
  let run := Exporter.invocations cfg clock answer request in
  effects_on Exporter.INPROGRESS (effects_of run s)
  = [EvInc Exporter.INPROGRESS (model_labels cfg);
     EvDec Exporter.INPROGRESS (model_labels cfg)]
  ∧ gauge_value (registry (state_after run s)) Exporter.INPROGRESS (model_labels cfg)
    = gauge_value (registry s) Exporter.INPROGRESS (model_labels cfg).
Proof.
  intros Hb run; subst run. known_body Hb. unfold model_labels.
  destruct answer as [r|e];
    [response_paths r | by_kind e].
  all: evaluate.
  all: split; [reflexivity | autorewrite with registry; lia].
Qed.

(** C1 (the code departs from the claim): when reading the request body
    raises, [invocations] has already incremented the in-progress gauge and
    leaves without decrementing it: the exception propagates, the only effect
    on the gauge is the increment, and the gauge ends one above its
    pre-request value. *)
Theorem invocations_body_fault_leaks_inprogress cfg clock answer hdrs e s :
  let request := {| Exporter.body := Raise e; Exporter.headers := hdrs |} in
  let run := Exporter.invocations cfg clock answer request in
  result_of run s = Raise e
  ∧ effects_of run s
    = [EvPerfCounter; EvInc Exporter.INPROGRESS (model_labels cfg); EvReadBody]
  ∧ effects_on Exporter.INPROGRESS (effects_of run s)
    = [EvInc Exporter.INPROGRESS (model_labels cfg)]
  ∧ gauge_value (registry (state_after run s)) Exporter.INPROGRESS (model_labels cfg)
    = gauge_value (registry s) Exporter.INPROGRESS (model_labels cfg) + 1.
Proof.
  intros request run; subst request run. unfold model_labels.
  evaluate. split_and!; try reflexivity.
  by autorewrite with registry.
Qed.

Example disconnected_client_leaves_gauge_at_1 :
  let run := Exporter.invocations Exporter.default_config clock0
               (Return prediction_200) request_disconnected in
  result_of run s0 = Raise client_disconnect
  ∧ gauge_value (registry (state_after run s0)) Exporter.INPROGRESS
      (model_labels Exporter.default_config) = 1.
Proof. split; reflexivity. Qed.

(** ** The payload-size histogram *)

(** C9: when the body is read, the handler's first five effects are, whatever
    the upstream then answers, the clock reading, the gauge increment, the
    body read, the observation of the number of bytes read, and the dispatch
    of those bytes; the payload-size histogram is acted on exactly once in
    the whole run, and gains that one observation.  The value observed is the
    length of the body, not a header of the request. *)
Theorem payload_size_observed_before_dispatch cfg clock answer request b s :
  Exporter.body request = Return b →
  let run := Exporter.invocations cfg clock answer request in
  let size := inject_Z (Z.of_nat (length b)) in
  take 5 (effects_of run s)
  = [EvPerfCounter;
     EvInc Exporter.INPROGRESS (model_labels cfg);
     EvReadBody;
     EvObserve Exporter.PAYLOAD_BYTES (model_labels cfg) size;
     EvPost (Exporter.MLFLOW_SCORING_URL cfg) b
       {[ "Content-Type" :=
            headers_get (Exporter.headers request) "content-type" "application/json" ]}]
  ∧ effects_on Exporter.PAYLOAD_BYTES (effects_of run s)
    = [EvObserve Exporter.PAYLOAD_BYTES (model_labels cfg) size]
  ∧ observations (registry (state_after run s)) Exporter.PAYLOAD_BYTES (model_labels cfg)
    = observations (registry s) Exporter.PAYLOAD_BYTES (model_labels cfg) ++ [size].
Proof.
  intros Hb run size; subst run size. known_body Hb. unfold model_labels.
  destruct answer as [r|e];
    [response_paths r | by_kind e].
  all: evaluate.
  all: split_and!; [reflexivity | reflexivity | by autorewrite with registry].
Qed.

Lemma payload_size_observed_witness :
  Exporter.body request0 = Return payload0
  ∧ effects_on Exporter.PAYLOAD_BYTES
      (effects_of (Exporter.invocations Exporter.default_config clock0
                     (Raise connection_refused) request0) s0)
    = [EvObserve Exporter.PAYLOAD_BYTES (model_labels Exporter.default_config)
         (inject_Z (Z.of_nat (length payload0)))].
Proof.
  split; [reflexivity |].
  exact (proj1 (proj2 (payload_size_observed_before_dispatch Exporter.default_config
                         clock0 (Raise connection_refused) request0 payload0 s0
                         eq_refl))).
Defined.

(** ** Latency and request count *)

(** C3 (counterexample): a request whose body cannot be read leaves no
    latency observation and no increment of the total-requests counter; a
    request whose upstream response cannot be relayed leaves two of each. *)
Lemma one_observation_counterexample :
  let run := Exporter.invocations Exporter.default_config clock0
               (Return prediction_200) request_disconnected in
  let twice := Exporter.invocations Exporter.default_config clock0
                 (Return unencodable_200) request0 in
  ¬ recorded_once Exporter.REQ_LATENCY (effects_of run s0)
  ∧ ¬ recorded_once Exporter.REQ_TOTAL (effects_of run s0)
  ∧ histograms (registry (state_after run s0)) = ∅
  ∧ counters (registry (state_after run s0)) = ∅
  ∧ length (effects_on Exporter.REQ_LATENCY (effects_of twice s0)) = 2%nat
  ∧ effects_on Exporter.REQ_TOTAL (effects_of twice s0)
    = [EvInc Exporter.REQ_TOTAL (model_labels Exporter.default_config ++ ["200"]);
       EvInc Exporter.REQ_TOTAL (model_labels Exporter.default_config ++ ["500"])].
Proof.
  split_and!; [by vm_compute | by vm_compute | vm_compute; reflexivity ..].
Qed.

(** C3 (amended): when the body is read and the dispatch raises an
    [Exception] or returns a response, of any status, from which the relaying
    [Response] can be built, the latency histogram is acted on exactly once,
    by one observation of the time between the two clock readings, and the
    total-requests counter exactly once, by one increment of the child of one
    status code. *)
Theorem one_latency_observation_and_one_count cfg clock answer request b s :
  Exporter.body request = Return b →
  (∀ e, answer = Raise e → isinstance_Exception e = true) →
  (∀ r, answer = Return r → relayable r = true) →
  let run := Exporter.invocations cfg clock answer request in
  let latency := (clock (S (clock_reads s)) - clock (clock_reads s))%Q in
  recorded_once Exporter.REQ_LATENCY (effects_of run s)
  ∧ recorded_once Exporter.REQ_TOTAL (effects_of run s)
  ∧ effects_on Exporter.REQ_LATENCY (effects_of run s)
    = [EvObserve Exporter.REQ_LATENCY (model_labels cfg) latency]
  ∧ observations (registry (state_after run s)) Exporter.REQ_LATENCY (model_labels cfg)
    = observations (registry s) Exporter.REQ_LATENCY (model_labels cfg) ++ [latency]
  ∧ ∃ code,
      effects_on Exporter.REQ_TOTAL (effects_of run s)
      = [EvInc Exporter.REQ_TOTAL (model_labels cfg ++ [code])]
      ∧ counter_value (registry (state_after run s)) Exporter.REQ_TOTAL
          (model_labels cfg ++ [code])
        = S (counter_value (registry s) Exporter.REQ_TOTAL (model_labels cfg ++ [code])).
Proof.
  intros Hb Hexn Hrel run latency; subst run latency. known_body Hb.
  unfold model_labels, recorded_once.
  destruct answer as [r|e].
  - pose proof (Hrel r eq_refl) as Hrelay. unfold relayable in Hrelay. clear Hexn Hrel.
    destruct (Exporter._is_2xx (httpx.status_code r)) eqn:H2xx.
    all: evaluate.
    all: split_and!; [reflexivity | reflexivity | reflexivity
                      | by autorewrite with registry | ].
    all: eexists; split; [reflexivity | by autorewrite with registry].
  - specialize (Hexn e eq_refl). by_kind e. all: clear Hexn Hrel.
    all: evaluate.
    all: split_and!; [reflexivity | reflexivity | reflexivity
                      | by autorewrite with registry | ].
    all: eexists; split; [reflexivity | by autorewrite with registry].
Qed.

Lemma one_latency_observation_and_one_count_witness :
  Exporter.body request0 = Return payload0
  ∧ (∀ e, Raise (A := httpx.Response) read_timeout = Raise e → isinstance_Exception e = true)
  ∧ (∀ r, Raise (A := httpx.Response) read_timeout = Return r → relayable r = true)
  ∧ recorded_once Exporter.REQ_LATENCY
      (effects_of (Exporter.invocations Exporter.default_config clock0
                     (Raise read_timeout) request0) s0)
  ∧ recorded_once Exporter.REQ_TOTAL
      (effects_of (Exporter.invocations Exporter.default_config clock0
                     (Raise read_timeout) request0) s0).
Proof.
  assert (Hexn : ∀ e, Raise (A := httpx.Response) read_timeout = Raise e
                      → isinstance_Exception e = true)
    by (intros e [= <-]; reflexivity).
  assert (Hrel : ∀ r, Raise (A := httpx.Response) read_timeout = Return r
                      → relayable r = true)
    by (intros r; discriminate).
  split; [reflexivity | split; [exact Hexn | split; [exact Hrel |]]].
  pose proof (one_latency_observation_and_one_count Exporter.default_config clock0
                (Raise read_timeout) request0 payload0 s0 eq_refl Hexn Hrel) as H.
  split; apply H.
Defined.

(** ** Connect failure *)

(** C4 (counterexample): when no connection is established within the
    connect timeout, the dispatch raises [httpx.ConnectTimeout], which is not
    an [httpx.ConnectError]: the caller gets 500, the request is counted at
    "500" and under "unexpected_exception", and the upstream-up gauge is not
    written. *)
Lemma connect_timeout_counterexample :
  let labels := model_labels Exporter.default_config in
  let run := Exporter.invocations Exporter.default_config clock0
               (Raise connect_timeout) request0 in
  isinstance_ConnectError connect_timeout = false
  ∧ result_of run s0
    = Return (fastapi.PlainTextResponse "Internal proxy error: ConnectTimeout" 500)
  ∧ effects_on Exporter.REQ_TOTAL (effects_of run s0)
    = [EvInc Exporter.REQ_TOTAL (labels ++ ["500"])]
  ∧ effects_on Exporter.REQ_ERRORS (effects_of run s0)
    = [EvInc Exporter.REQ_ERRORS (labels ++ ["unexpected_exception"])]
  ∧ counter_value (registry (state_after run s0)) Exporter.REQ_ERRORS
      (labels ++ ["connect_error"]) = O
  ∧ effects_on Exporter.UPSTREAM_UP (effects_of run s0) = [].
Proof. split_and!; vm_compute; reflexivity. Qed.

(** C4 (amended): when the dispatch raises [httpx.ConnectError], the handler observes
    the latency once, increments the total-requests counter at status "502"
    and the errors counter at error type "connect_error", sets the
    upstream-up gauge to 0, and answers 502 with the plain text
    "Upstream MLflow server unreachable". *)
Theorem connect_failure_handling cfg clock request b e s :
  Exporter.body request = Return b →
  isinstance_ConnectError e = true →
  let run := Exporter.invocations cfg clock (Raise e) request in
  let after := registry (state_after run s) in
  let latency := (clock (S (clock_reads s)) - clock (clock_reads s))%Q in
  result_of run s
  = Return {| fastapi.content := fastapi.Text "Upstream MLflow server unreachable";
              fastapi.status_code := 502;
              fastapi.media_type := "text/plain" |}
  ∧ observations after Exporter.REQ_LATENCY (model_labels cfg)
    = observations (registry s) Exporter.REQ_LATENCY (model_labels cfg) ++ [latency]
  ∧ effects_on Exporter.REQ_TOTAL (effects_of run s)
    = [EvInc Exporter.REQ_TOTAL (model_labels cfg ++ ["502"])]
  ∧ counter_value after Exporter.REQ_TOTAL (model_labels cfg ++ ["502"])
    = S (counter_value (registry s) Exporter.REQ_TOTAL (model_labels cfg ++ ["502"]))
  ∧ effects_on Exporter.REQ_ERRORS (effects_of run s)
    = [EvInc Exporter.REQ_ERRORS (model_labels cfg ++ ["connect_error"])]
  ∧ counter_value after Exporter.REQ_ERRORS (model_labels cfg ++ ["connect_error"])
    = S (counter_value (registry s) Exporter.REQ_ERRORS
           (model_labels cfg ++ ["connect_error"]))
  ∧ gauge_value after Exporter.UPSTREAM_UP (model_labels cfg) = 0.
Proof.
  intros Hb He run after latency; subst after run latency. known_body Hb.
  unfold model_labels. by_kind e. clear He.
  evaluate.
  split_and!; try reflexivity; by autorewrite with registry.
Qed.

Lemma connect_failure_handling_witness :
  Exporter.body request0 = Return payload0
  ∧ isinstance_ConnectError connection_refused = true
  ∧ result_of (Exporter.invocations Exporter.default_config clock0
                 (Raise connection_refused) request0) s0
    = Return (fastapi.PlainTextResponse "Upstream MLflow server unreachable" 502).
Proof.
  split; [reflexivity | split; [reflexivity |]].
  exact (proj1 (connect_failure_handling Exporter.default_config clock0 request0
                  payload0 connection_refused s0 eq_refl eq_refl)).
Defined.

(** ** The upstream-up gauge *)

(** C10: on the path through [except Exception], the run never acts on the
    upstream-up gauge and leaves its child as it was.  The branch itself acts
    on the latency histogram, the total-requests counter and the errors
    counter, once each, and leaves every child of every other metric as it
    was; the branch of [except httpx.ConnectError] is the one that writes the
    upstream-up gauge. *)
Theorem generic_failure_leaves_upstream_up cfg clock request b e s :
  Exporter.body request = Return b →
  isinstance_ConnectError e = false →
  isinstance_Exception e = true →
  let run := Exporter.invocations cfg clock (Raise e) request in
  effects_on Exporter.UPSTREAM_UP (effects_of run s) = []
  ∧ same_child (registry (state_after run s)) (registry s)
      Exporter.UPSTREAM_UP (model_labels cfg)
  ∧ (∀ start s1,
       let branch := Exporter.on_other_exception cfg clock start e in
       touched (effects_of branch s1)
       = [Exporter.REQ_LATENCY; Exporter.REQ_TOTAL; Exporter.REQ_ERRORS]
       ∧ ∀ name labels,
           name ∉ [Exporter.REQ_LATENCY; Exporter.REQ_TOTAL; Exporter.REQ_ERRORS] →
           same_child (registry (state_after branch s1)) (registry s1) name labels)
  ∧ (∀ start s1,
       effects_on Exporter.UPSTREAM_UP
         (effects_of (Exporter.on_connect_error cfg clock start) s1)
       = [EvSet Exporter.UPSTREAM_UP (model_labels cfg) 0]).
Proof.
  intros Hb Hc He run; subst run. known_body Hb. unfold model_labels.
  split_and!.
  - by_kind e; evaluate; reflexivity.
  - by_kind e; evaluate; unfold_registry.
    all: split_and!; try reflexivity.
    all: rewrite !lookup_insert_ne by (intros [=]); reflexivity.
  - intros start s1. cbv zeta. evaluate.
    split; [reflexivity |].
    intros name labels Hname. unfold_registry.
    split_and!; try reflexivity.
    all: rewrite !lookup_insert_ne; [done | ..].
    all: intros [= <- _]; apply Hname; set_solver.
  - intros start s1. evaluate. reflexivity.
Qed.

Lemma generic_failure_leaves_upstream_up_witness :
  Exporter.body request0 = Return payload0
  ∧ isinstance_ConnectError read_timeout = false
  ∧ isinstance_Exception read_timeout = true
  ∧ effects_on Exporter.UPSTREAM_UP
      (effects_of (Exporter.invocations Exporter.default_config clock0
                     (Raise read_timeout) request0) s0) = [].
Proof.
  split; [reflexivity | split; [reflexivity | split; [reflexivity |]]].
  exact (proj1 (generic_failure_leaves_upstream_up Exporter.default_config clock0
                  request0 payload0 read_timeout s0 eq_refl eq_refl eq_refl)).
Defined.

(** C7 (counterexample): a probe that cannot connect sets the gauge to 0; a
    forward that then gets a 200 from the upstream leaves it at 0. *)
Lemma upstream_up_counterexample :
  let labels := model_labels Exporter.default_config in
  let down := state_after (Exporter.health Exporter.default_config
                             (Raise connection_refused)) s0 in
  let run := Exporter.invocations Exporter.default_config clock0
               (Return prediction_200) request0 in
  gauge_value (registry down) Exporter.UPSTREAM_UP labels = 0
  ∧ fastapi.status_code <$> (match result_of run down with
                             | Return resp => Some resp
                             | Raise _ => None
                             end) = Some 200
  ∧ gauge_value (registry (state_after run down)) Exporter.UPSTREAM_UP labels = 0
  ∧ gauge_value (registry (state_after run down)) Exporter.UPSTREAM_UP labels ≠ 1.
Proof. split_and!; vm_compute; (reflexivity || discriminate). Qed.

(** C7 (amended): the health prober sets the upstream-up gauge to 1 whenever
    its request obtains a response, whatever the status code, and to 0
    whenever its request raises an [Exception]; a forward whose dispatch
    raises [httpx.ConnectError] sets the gauge to 0, and a forward whose
    dispatch raises anything else leaves the child of the gauge as it was. *)
Theorem upstream_up_gauge_writes cfg clock s :
  let labels := model_labels cfg in
  (∀ r,
     let run := Exporter.health cfg (Return r) in
     result_of run s
     = Return (JObj [("status", JStr "ok"); ("upstream", JStr "reachable");
                     ("code", JNum (httpx.status_code r))])
     ∧ gauge_value (registry (state_after run s)) Exporter.UPSTREAM_UP labels = 1)
  ∧ (∀ e,
       isinstance_Exception e = true →
       let run := Exporter.health cfg (Raise e) in
       result_of run s
       = Return (JObj [("status", JStr "degraded"); ("upstream", JStr "unreachable")])
       ∧ gauge_value (registry (state_after run s)) Exporter.UPSTREAM_UP labels = 0)
  ∧ (∀ request b e,
       Exporter.body request = Return b →
       isinstance_ConnectError e = true →
       let run := Exporter.invocations cfg clock (Raise e) request in
       gauge_value (registry (state_after run s)) Exporter.UPSTREAM_UP labels = 0)
  ∧ (∀ request b e,
       Exporter.body request = Return b →
       isinstance_ConnectError e = false →
       let run := Exporter.invocations cfg clock (Raise e) request in
       same_child (registry (state_after run s)) (registry s)
         Exporter.UPSTREAM_UP labels).
Proof.
  intros labels; subst labels. unfold model_labels. split_and!.
  - intros r. cbv zeta. evaluate. split; [reflexivity | by autorewrite with registry].
  - intros e He. cbv zeta. by_kind e; clear He.
    all: evaluate; split; [reflexivity | by autorewrite with registry].
  - intros request b e Hb He. cbv zeta. known_body Hb. by_kind e; clear He.
    evaluate. by autorewrite with registry.
  - intros request b e Hb He. cbv zeta. known_body Hb. by_kind e; clear He.
    all: evaluate; unfold_registry.
    all: split_and!; try reflexivity.
    all: rewrite !lookup_insert_ne by (intros [=]); reflexivity.
Qed.

Lemma upstream_up_gauge_writes_witness :
  isinstance_Exception read_timeout = true
  ∧ Exporter.body request0 = Return payload0
  ∧ isinstance_ConnectError connection_refused = true
  ∧ isinstance_ConnectError read_timeout = false
  ∧ gauge_value
      (registry (state_after (Exporter.health Exporter.default_config
                                (Raise read_timeout)) s0))
      Exporter.UPSTREAM_UP (model_labels Exporter.default_config) = 0
  ∧ gauge_value
      (registry (state_after (Exporter.invocations Exporter.default_config clock0
                                (Raise connection_refused) request0) s0))
      Exporter.UPSTREAM_UP (model_labels Exporter.default_config) = 0
  ∧ same_child
      (registry (state_after (Exporter.invocations Exporter.default_config clock0
                                (Raise read_timeout) request0) s0))
      (registry s0) Exporter.UPSTREAM_UP (model_labels Exporter.default_config).
Proof.
  pose proof (upstream_up_gauge_writes Exporter.default_config clock0 s0)
    as (_ & Hdown & Hconnect & Hother).
  split; [reflexivity | split; [reflexivity | split; [reflexivity |
    split; [reflexivity |]]]].
  split; [exact (proj2 (Hdown read_timeout eq_refl)) |].
  split; [exact (Hconnect request0 payload0 connection_refused eq_refl eq_refl) |].
  exact (Hother request0 payload0 read_timeout eq_refl eq_refl).
Defined.

(** ** Relaying the upstream response *)




(** ** Upstream error statuses *)




(** ** Timeouts and other transport failures *)




(** ** What the caller is told about a failure *)




(** * Further properties of the handlers *)

(** ** What [/invocations] sends upstream *)

(** The handler dispatches once when the body is read and not at all when it
    is not: the call goes to [MLFLOW_SCORING_URL] with the bytes read, unchanged,
    and with one header, the content type the caller declared or
    "application/json" when the caller declared none.  Whatever the upstream
    answers, there is no second call. *)
Theorem invocations_dispatches_body_once cfg clock answer request s :
  let run := Exporter.invocations cfg clock answer request in
  let content_type :=
    match Exporter.headers request !! "content-type" with
    | Some declared => declared
    | None => "application/json"
    end in
  dispatches (effects_of run s)
  = match Exporter.body request with
    | Return b =>
        [EvPost (Exporter.MLFLOW_SCORING_URL cfg) b {[ "Content-Type" := content_type ]}]
    | Raise _ => []
    end.
Proof.
  intros run content_type; subst run content_type.
  destruct request as [[b|e0] hdrs]; cbn [Exporter.body Exporter.headers].
  - destruct answer as [r|e];
      [response_paths r | by_kind e].
    all: evaluate; reflexivity.
  - evaluate. reflexivity.
Qed.

(** ** Exceptions that [/invocations] does not catch *)

(** When the dispatch raises something that is not an [Exception], it reaches
    the caller; the [finally] clause has decremented the in-progress gauge,
    and neither latency nor any counter was recorded. *)
Theorem invocations_uncaught_exception cfg clock request b e s :
  Exporter.body request = Return b →
  isinstance_Exception e = false →
  let run := Exporter.invocations cfg clock (Raise e) request in
  result_of run s = Raise e
  ∧ touched (effects_of run s)
    = [Exporter.INPROGRESS; Exporter.PAYLOAD_BYTES; Exporter.INPROGRESS]
  ∧ gauge_value (registry (state_after run s)) Exporter.INPROGRESS (model_labels cfg)
    = gauge_value (registry s) Exporter.INPROGRESS (model_labels cfg)
  ∧ (∀ name labels,
       counter_value (registry (state_after run s)) name labels
       = counter_value (registry s) name labels).
Proof.
  intros Hb He run; subst run. known_body Hb. unfold model_labels.
  by_kind e; clear He. evaluate.
  split_and!; [reflexivity | reflexivity | autorewrite with registry; lia |].
  intros name labels. by autorewrite with registry.
Qed.

Lemma invocations_uncaught_exception_witness :
  Exporter.body request0 = Return payload0
  ∧ isinstance_Exception keyboard_interrupt = false
  ∧ result_of (Exporter.invocations Exporter.default_config clock0
                 (Raise keyboard_interrupt) request0) s0
    = Raise keyboard_interrupt.
Proof.
  split; [reflexivity | split; [reflexivity |]].
  exact (proj1 (invocations_uncaught_exception Exporter.default_config clock0 request0
                  payload0 keyboard_interrupt s0 eq_refl eq_refl)).
Defined.

(** ** The status that [/invocations] counts *)



(** Under the same conditions the errors counter is incremented at least once
    exactly when the status code of the response handed to the caller is
    outside [200,300), and at most once whenever the dispatch raised or the
    relaying [Response] could be built. *)
Theorem invocations_counts_an_error_iff_answer_not_2xx cfg clock answer request b s :
  Exporter.body request = Return b →
  (∀ e, answer = Raise e → isinstance_Exception e = true) →
  let run := Exporter.invocations cfg clock answer request in
  let built := match answer with Return r => relayable r | Raise _ => true end in
  ∃ resp,
    result_of run s = Return resp
    ∧ (effects_on Exporter.REQ_ERRORS (effects_of run s) = []
       ↔ Exporter._is_2xx (fastapi.status_code resp) = true)
    ∧ (built = true →
       (length (effects_on Exporter.REQ_ERRORS (effects_of run s)) ≤ 1)%nat).
Proof.
  intros Hb Hexn run built; subst run built. known_body Hb.
  destruct answer as [r|e];
    [unfold relayable; response_paths r; rewrite Hrelay
    | specialize (Hexn e eq_refl); by_kind e]; clear Hexn.
  all: eexists; evaluate; (split; [reflexivity |]).
  all: cbn [fastapi.status_code fastapi.PlainTextResponse]; rewrite ?H2xx.
  all: split; [split; (reflexivity || discriminate) | ].
  all: first [ discriminate | intros _; vm_compute; lia ].
Qed.

Lemma invocations_counts_an_error_iff_answer_not_2xx_witness :
  Exporter.body request0 = Return payload0
  ∧ (∀ e, Raise (A := httpx.Response) connection_refused = Raise e
          → isinstance_Exception e = true)
  ∧ ∃ resp,
      result_of (Exporter.invocations Exporter.default_config clock0
                   (Raise connection_refused) request0) s0 = Return resp
      ∧ (effects_on Exporter.REQ_ERRORS
           (effects_of (Exporter.invocations Exporter.default_config clock0
                          (Raise connection_refused) request0) s0) = []
         ↔ Exporter._is_2xx (fastapi.status_code resp) = true).
Proof.
  assert (Hexn : ∀ e, Raise (A := httpx.Response) connection_refused = Raise e
                      → isinstance_Exception e = true)
    by (intros e [= <-]; reflexivity).
  split; [reflexivity | split; [exact Hexn |]].
  destruct (invocations_counts_an_error_iff_answer_not_2xx Exporter.default_config
              clock0 (Raise connection_refused) request0 payload0 s0 eq_refl Hexn)
    as (resp & Hresp & Hiff & _).
  exists resp. split; [exact Hresp | exact Hiff].
Defined.

(** ** Counters only grow *)

Lemma counters_le_refl r : counters_le r r.
Proof. intros name labels. reflexivity. Qed.

Lemma counters_le_trans r1 r2 r3 :
  counters_le r1 r2 → counters_le r2 r3 → counters_le r1 r3.
Proof. intros H12 H23 name labels. etransitivity; [apply H12 | apply H23]. Qed.

Lemma counters_le_counter_inc r r' n l :
  counters_le r r' → counters_le r (reg_counter_inc n l r').
Proof.
  intros Hle name labels. specialize (Hle name labels).
  destruct (decide ((n, l) = (name, labels))) as [[= <- <-] | Hne].
  - rewrite counter_value_inc_eq. lia.
  - by rewrite counter_value_inc_ne.
Qed.

Lemma counters_le_gauge_set r r' n l v :
  counters_le r r' → counters_le r (reg_gauge_set n l v r').
Proof. intros Hle name labels. apply Hle. Qed.

Lemma counters_le_gauge_inc r r' n l :
  counters_le r r' → counters_le r (reg_gauge_inc n l r').
Proof. intros Hle name labels. apply Hle. Qed.

Lemma counters_le_gauge_dec r r' n l :
  counters_le r r' → counters_le r (reg_gauge_dec n l r').
Proof. intros Hle name labels. apply Hle. Qed.

Lemma counters_le_observe r r' n l v :
  counters_le r r' → counters_le r (reg_observe n l v r').
Proof. intros Hle name labels. apply Hle. Qed.

(** Peel the writes off the final registry, one at a time. *)
Ltac counters_grow :=
  repeat first
    [ apply counters_le_refl
    | apply counters_le_counter_inc
    | apply counters_le_gauge_set
    | apply counters_le_gauge_inc
    | apply counters_le_gauge_dec
    | apply counters_le_observe ].

(** Whatever the request and whatever the upstream does, a run of
    [/invocations] leaves every child of every counter at least as high as it
    found it. *)
Theorem invocations_never_lowers_a_counter cfg clock answer request s :
  counters_le (registry s)
    (registry (state_after (Exporter.invocations cfg clock answer request) s)).
Proof.
  destruct request as [[b|e0] hdrs];
    [destruct answer as [r|e];
       [response_paths r | by_kind e] |].
  all: evaluate; counters_grow.
Qed.

(** Whatever the request and whatever the upstream does, a run of [/predict]
    leaves every child of every counter at least as high as it found it. *)
Theorem predict_never_lowers_a_counter cfg clock answer request s :
  counters_le (registry s)
    (registry (state_after (Exporter3.predict cfg clock answer request) s)).
Proof.
  destruct request as [[p|e0]]; [| by_kind e0].
  1: destruct answer as [r|e];
       [destruct (requests.ok r) eqn:Hok;
          [destruct (requests.json r) as [j|ej] eqn:Hj;
             [destruct (json_compliant j) eqn:Hnan | by_kind ej] |]
       | by_kind e].
  all: evaluate; counters_grow.
Qed.

(** ** Requests handled one after the other *)

Lemma inprogress_step cfg clock item s :
  gauge_value
    (registry (state_after (Exporter.invocations cfg clock item.1 item.2) s))
    Exporter.INPROGRESS (model_labels cfg)
  = gauge_value (registry s) Exporter.INPROGRESS (model_labels cfg)
    + (if body_fault item then 1 else 0).
Proof.
  destruct item as [answer request]. unfold body_fault, model_labels. cbn [fst snd].
  destruct request as [[b|e0] hdrs]; cbn [Exporter.body];
    [destruct answer as [r|e];
       [response_paths r | by_kind e] |].
  all: evaluate; autorewrite with registry; lia.
Qed.

Lemma serve_cons cfg clock item batch s :
  serve cfg clock (item :: batch) s
  = serve cfg clock batch
      (state_after (Exporter.invocations cfg clock item.1 item.2) s).
Proof. reflexivity. Qed.

(** After any sequence of requests, the in-progress gauge stands above its
    initial value by the number of requests whose body could not be read: it
    is back where it started exactly when every body was read. *)
Theorem serve_inprogress_drift cfg clock batch s :
  gauge_value (registry (serve cfg clock batch s)) Exporter.INPROGRESS (model_labels cfg)
  = gauge_value (registry s) Exporter.INPROGRESS (model_labels cfg)
    + Z.of_nat (length (List.filter body_fault batch)).
Proof.
  revert s. induction batch as [|item batch IH]; intros s.
  - cbn. lia.
  - rewrite serve_cons, IH, inprogress_step.
    cbn [List.filter]. destruct (body_fault item); cbn [length]; lia.
Qed.

Lemma total_step cfg clock item code s labels :
  answered_with code item →
  counter_value
    (registry (state_after (Exporter.invocations cfg clock item.1 item.2) s))
    Exporter.REQ_TOTAL labels
  = if decide (labels = model_labels cfg ++ [str code])
    then S (counter_value (registry s) Exporter.REQ_TOTAL labels)
    else counter_value (registry s) Exporter.REQ_TOTAL labels.
Proof.
  destruct item as [answer request]. intros [[b Hb] [r (Hr & Hcode & Hrelay)]].
  cbn [fst snd] in *. subst answer code. known_body Hb.
  unfold model_labels, relayable in *.
  destruct (Exporter._is_2xx (httpx.status_code r)) eqn:H2xx.
  all: evaluate; autorewrite with registry.
  all: case_decide as Heq; [rewrite Heq; by autorewrite with registry |].
  all: rewrite counter_value_inc_ne; [by autorewrite with registry |].
  all: intros [= Hl]; apply Heq; by rewrite <- Hl.
Qed.

(** When every request of a sequence has its body read and is answered by
    the upstream with the same status code, in a response that can be
    relayed, the total-requests counter at that
    status rises by the number of requests, and at every other status it stays
    as it was. *)
Theorem serve_counts_every_request cfg clock batch code s labels :
  Forall (answered_with code) batch →
  counter_value (registry (serve cfg clock batch s)) Exporter.REQ_TOTAL labels
  = if decide (labels = model_labels cfg ++ [str code])
    then (counter_value (registry s) Exporter.REQ_TOTAL labels + length batch)%nat
    else counter_value (registry s) Exporter.REQ_TOTAL labels.
Proof.
  intros Hall. revert s. induction Hall as [|item batch Hitem _ IH]; intros s.
  - cbn. case_decide; lia.
  - rewrite serve_cons, IH.
    rewrite (total_step cfg clock item code s labels Hitem).
    case_decide; cbn [length]; lia.
Qed.

Lemma serve_counts_every_request_witness :
  Forall (answered_with 200) batch_200
  ∧ counter_value (registry (serve Exporter.default_config clock0 batch_200 s0))
      Exporter.REQ_TOTAL (model_labels Exporter.default_config ++ [str 200])
    = 2%nat.
Proof.
  assert (Hall : Forall (answered_with 200) batch_200).
  { repeat constructor; (by exists payload0) || (by exists prediction_200). }
  split; [exact Hall |].
  pose proof (serve_counts_every_request Exporter.default_config clock0 batch_200 200 s0
                (model_labels Exporter.default_config ++ [str 200]) Hall) as H.
  rewrite decide_True in H by reflexivity. exact H.
Defined.

(** ** The health probe *)

Lemma prefix_refl (s : string) : String.prefix s s = true.
Proof.
  induction s as [|a s IH]; [reflexivity |].
  cbn. destruct (Ascii.ascii_dec a a); [exact IH | congruence].
Qed.

Lemma replace_from_skips_all old new (s : string) :
  replace_from old new (String.length s) s = "".
Proof. induction s as [|a s IH]; [reflexivity | exact IH]. Qed.

Lemma append_cons (a : Ascii.ascii) (s t : string) :
  String a s +:+ t = String a (s +:+ t).
Proof. reflexivity. Qed.

Lemma append_empty_l (s : string) : "" +:+ s = s.
Proof. reflexivity. Qed.

Lemma append_empty_r (s : string) : s +:+ "" = s.
Proof. induction s as [|a s IH]; [reflexivity | by rewrite append_cons, IH]. Qed.

(** A string in which [old] does not occur is left as it is. *)
Lemma replace_absent (s old new : string) :
  contains old s = false → replace s old new = s.
Proof.
  unfold replace. induction s as [|a s IH]; [reflexivity |].
  cbn [contains replace_from]. intros [Hhere Hrest]%orb_false_iff.
  rewrite Hhere. by rewrite IH.
Qed.

(** A string that ends in [old], and in which [old] does not start earlier,
    has that one occurrence replaced. *)
Lemma replace_at_end (base old new : string) :
  old ≠ "" →
  occurs_before (String.length base) old (base +:+ old) = false →
  replace (base +:+ old) old new = base +:+ new.
Proof.
  intros Hold. unfold replace. induction base as [|a base IH].
  - intros _. destruct old as [|c t]; [done |].
    rewrite !append_empty_l. cbn [replace_from]. rewrite prefix_refl.
    cbn [String.length Nat.pred]. by rewrite replace_from_skips_all, append_empty_r.
  - rewrite !append_cons. cbn [String.length occurs_before replace_from].
    intros [Hhere Hrest]%orb_false_iff. rewrite Hhere. by rewrite IH.
Qed.

Lemma health_dispatch cfg answer s :
  dispatches (effects_of (Exporter.health cfg answer) s)
  = [EvGet (replace (Exporter.MLFLOW_SCORING_URL cfg) "/invocations" "/")].
Proof. destruct answer as [r|e]; [| by_kind e]; evaluate; reflexivity. Qed.

(** [/health] makes one call, a GET, and nothing else leaves the process; it
    acts on no metric but the upstream-up gauge and leaves every counter and
    every histogram as it found them.  It answers "ok" with the status code
    when the GET returns a response and "degraded" when the GET raises an
    [Exception], so that no [Exception] escapes it; what the GET raises
    outside [Exception] does escape, and the gauge is then not written. *)
Theorem health_probes_once cfg answer s :
  let run := Exporter.health cfg answer in
  dispatches (effects_of run s)
  = [EvGet (replace (Exporter.MLFLOW_SCORING_URL cfg) "/invocations" "/")]
  ∧ counters (registry (state_after run s)) = counters (registry s)
  ∧ histograms (registry (state_after run s)) = histograms (registry s)
  ∧ match answer with
    | Return r =>
        result_of run s
        = Return (JObj [("status", JStr "ok"); ("upstream", JStr "reachable");
                        ("code", JNum (httpx.status_code r))])
        ∧ touched (effects_of run s) = [Exporter.UPSTREAM_UP]
    | Raise e =>
        if isinstance_Exception e
        then result_of run s
             = Return (JObj [("status", JStr "degraded");
                             ("upstream", JStr "unreachable")])
             ∧ touched (effects_of run s) = [Exporter.UPSTREAM_UP]
        else result_of run s = Raise e ∧ touched (effects_of run s) = []
    end.
Proof.
  intros run; subst run.
  destruct answer as [r|e]; [| by_kind e].
  all: cbv [isinstance_Exception kind]; evaluate; split_and!; reflexivity.
Qed.

(** When the scoring URL is some base followed by "/invocations", with no
    earlier occurrence of "/invocations" in it, the probe goes to the base
    followed by "/". *)
Theorem health_probes_the_root cfg answer base s :
  Exporter.MLFLOW_SCORING_URL cfg = base +:+ "/invocations" →
  occurs_before (String.length base) "/invocations" (Exporter.MLFLOW_SCORING_URL cfg)
  = false →
  dispatches (effects_of (Exporter.health cfg answer) s) = [EvGet (base +:+ "/")].
Proof.
  intros Hurl Hfirst. rewrite health_dispatch.
  rewrite Hurl in Hfirst |- *. by rewrite replace_at_end.
Qed.

Lemma health_probes_the_root_witness :
  Exporter.MLFLOW_SCORING_URL Exporter.default_config
  = "http://127.0.0.1:5001" +:+ "/invocations"
  ∧ occurs_before (String.length "http://127.0.0.1:5001") "/invocations"
      (Exporter.MLFLOW_SCORING_URL Exporter.default_config) = false
  ∧ dispatches (effects_of (Exporter.health Exporter.default_config
                              (Raise connection_refused)) s0)
    = [EvGet ("http://127.0.0.1:5001" +:+ "/")].
Proof.
  split; [reflexivity | split; [reflexivity |]].
  exact (health_probes_the_root Exporter.default_config (Raise connection_refused)
           "http://127.0.0.1:5001" s0 eq_refl eq_refl).
Defined.

(** When "/invocations" does not occur in the scoring URL, the probe goes to
    the scoring URL itself. *)
Theorem health_probes_the_scoring_url_itself cfg answer s :
  contains "/invocations" (Exporter.MLFLOW_SCORING_URL cfg) = false →
  dispatches (effects_of (Exporter.health cfg answer) s)
  = [EvGet (Exporter.MLFLOW_SCORING_URL cfg)].
Proof.
  intros Habsent. rewrite health_dispatch. by rewrite replace_absent.
Qed.

Lemma health_probes_the_scoring_url_itself_witness :
  contains "/invocations" (Exporter.MLFLOW_SCORING_URL config_score) = false
  ∧ dispatches (effects_of (Exporter.health config_score (Return prediction_200)) s0)
    = [EvGet "http://mlflow:5001/score"].
Proof.
  split; [reflexivity |].
  exact (health_probes_the_scoring_url_itself config_score (Return prediction_200) s0
           eq_refl).
Defined.

(** ** [/predict] *)


(** A body that is not JSON is answered 400 with a message built from the
    parser's exception; the errors counter is incremented at "invalid_json"
    and the total at "400".  Nothing is sent upstream, no latency is observed
    and no prediction is counted. *)
Theorem predict_rejects_invalid_json cfg clock answer e s :
  isinstance_Exception e = true →
  let run := Exporter3.predict cfg clock answer {| Exporter3.json := Raise e |} in
  result_of run s
  = Return (fastapi.JSONResponse 400
              (JObj [("status", JStr "error");
                     ("message", JStr ("Invalid JSON: " +:+ message e))]))
  ∧ effects_of run s
    = [EvPerfCounter; EvReadBody;
       EvInc Exporter3.HTTP_REQUEST_ERRORS_TOTAL ["/predict"; "POST"; "invalid_json"];
       EvInc Exporter3.HTTP_REQUESTS_TOTAL ["/predict"; "POST"; "400"]].
Proof.
  intros He run; subst run. by_kind e; clear He.
  all: evaluate; split; reflexivity.
Qed.

Lemma predict_rejects_invalid_json_witness :
  isinstance_Exception json_decode_error = true
  ∧ dispatches (effects_of (Exporter3.predict Exporter3.default_config clock0
                              (Return upstream3_200) request3_invalid) s0) = [].
Proof.
  split; [reflexivity |].
  pose proof (proj2 (predict_rejects_invalid_json Exporter3.default_config clock0
                       (Return upstream3_200) json_decode_error s0 eq_refl)) as H.
  cbv zeta in H. unfold request3_invalid. rewrite H. reflexivity.
Defined.









(** ** The load generator *)

Lemma loop_app args turns l1 l2 t :
  Inference.loop args turns (l1 ++ l2) t
  = match Inference.loop args turns l1 t with
    | (Return _, t') => Inference.loop args turns l2 t'
    | (Raise e, t') => (Raise e, t')
    end.
Proof.
  revert t. induction l1 as [|i l1 IH]; intros t; [reflexivity |].
  cbn [app Inference.loop].
  destruct (Inference.iteration args i (turns i) t) as [[[]|e] t'];
    [apply IH | reflexivity].
Qed.

(** What a plain turn does up to the call of [time.sleep]. *)
Lemma iteration_plain args i turn t :
  plain turn →
  let passed :=
    match Inference.answer turn with Return r => requests.ok r | Raise _ => false end in
  ∃ t',
    Inference.iteration args i turn t
    = match Inference.time_sleep (Inference.sleep args) with
      | Return _ =>
          (Return (),
           {| Inference.ok := Inference.ok t'; Inference.fail := Inference.fail t';
              Inference.out :=
                Inference.out t' ++ [Inference.Slept (Inference.sleep args)] |})
      | Raise e => (Raise e, t')
      end
    ∧ Inference.ok t' = Inference.ok t + (if passed then 1 else 0)
    ∧ Inference.fail t' = Inference.fail t + (if passed then 0 else 1)
    ∧ List.filter is_posted (Inference.out t')
      = List.filter is_posted (Inference.out t)
        ++ [Inference.Posted (Inference.exporter_url args)
              (JObj [("dataframe_records", JList [Inference.record turn])])]
    ∧ ∃ line, last (Inference.out t') = Some (Inference.Printed line).
Proof.
  intros (Hexn & Hshown & Hreported) passed; subst passed.
  unfold Inference.iteration. rewrite Hshown, Hreported.
  destruct (Inference.answer turn) as [r|e];
    [destruct (requests.ok r) | rewrite (Hexn e eq_refl)].
  all: eexists; split; [reflexivity |].
  all: cbn [Inference.ok Inference.fail Inference.out].
  all: rewrite !List.filter_app; cbn [List.filter is_posted]; rewrite app_nil_r.
  all: split_and!; try (reflexivity || lia).
  all: eexists; by rewrite last_snoc.
Qed.

(** What a stretch of plain turns does to the tally when [time.sleep]
    returns. *)
Lemma loop_tally args turns indices t :
  Inference.time_sleep (Inference.sleep args) = Return () →
  (∀ i, i ∈ indices → plain (turns i)) →
  let run := Inference.loop args turns indices t in
  let passed := Z.of_nat (length (List.filter (succeeded turns) indices)) in
  run.1 = Return ()
  ∧ Inference.ok run.2 = Inference.ok t + passed
  ∧ Inference.fail run.2 = Inference.fail t + Z.of_nat (length indices) - passed
  ∧ List.filter is_posted (Inference.out run.2)
    = List.filter is_posted (Inference.out t)
      ++ map (λ i, Inference.Posted (Inference.exporter_url args)
                     (JObj [("dataframe_records",
                             JList [Inference.record (turns i)])])) indices.
Proof.
  intros Hsleep. revert t. induction indices as [|i rest IH]; intros t Hplain; cbv zeta.
  - cbn. rewrite app_nil_r. split_and!; (reflexivity || lia).
  - assert (Hrest : ∀ k, k ∈ rest → plain (turns k))
      by (intros k Hk; apply Hplain; by right).
    destruct (iteration_plain args i (turns i) t) as (t1 & Hturn & Hok1 & Hfail1 & Hposts1 & _);
      [apply Hplain; by left |].
    rewrite Hsleep in Hturn.
    cbn [Inference.loop List.filter length map]. rewrite Hturn.
    fold (succeeded turns i) in Hok1, Hfail1.
    destruct (IH {| Inference.ok := Inference.ok t1; Inference.fail := Inference.fail t1;
                    Inference.out :=
                      Inference.out t1 ++ [Inference.Slept (Inference.sleep args)] |}
                Hrest) as (Hres & Hok & Hfail & Hposts).
    cbn [Inference.ok Inference.fail Inference.out] in Hok, Hfail, Hposts.
    rewrite List.filter_app in Hposts. cbn [List.filter is_posted] in Hposts.
    rewrite app_nil_r in Hposts.
    split_and!; [exact Hres | rewrite Hok, Hok1 | rewrite Hfail, Hfail1
                | rewrite Hposts, Hposts1, <- app_assoc; reflexivity].
    all: destruct (succeeded turns i); cbn [length]; lia.
Qed.

Lemma elem_of_range (i : nat) (n : Z) : i ∈ Inference.range n ↔ (i < Z.to_nat n)%nat.
Proof. unfold Inference.range. rewrite list_elem_of_In, in_seq. lia. Qed.

(** When [time.sleep] accepts the pause and every turn is plain (its call
    returns or raises an [Exception], and its line is printed), the script
    ends normally and every turn is tallied once: [ok] and [fail] add up to
    the number of turns, [ok] is the number of turns answered with a response
    for which [r.ok] holds, and the summary printed last carries these two
    numbers. *)
Theorem main_tallies_every_turn args turns :
  Inference.time_sleep (Inference.sleep args) = Return () →
  (∀ i, (i < Z.to_nat (Inference.n args))%nat → plain (turns i)) →
  let run := Inference.main args turns in
  run.1 = Return ()
  ∧ Inference.ok run.2 + Inference.fail run.2 = Z.max 0 (Inference.n args)
  ∧ Inference.ok run.2
    = Z.of_nat (length (List.filter (succeeded turns)
                          (Inference.range (Inference.n args))))
  ∧ last (Inference.out run.2)
    = Some (Inference.PrintedJson
              (JObj [("ok", JNum (Inference.ok run.2));
                     ("fail", JNum (Inference.fail run.2))])).
Proof.
  intros Hsleep Hplain run; subst run. unfold Inference.main.
  destruct (loop_tally args turns (Inference.range (Inference.n args))
              {| Inference.ok := 0; Inference.fail := 0; Inference.out := [] |} Hsleep)
    as (Hres & Hok & Hfail & _).
  { intros i Hi. apply Hplain. by apply elem_of_range. }
  destruct (Inference.loop _ _ _ _) as [[[]|e] t]; [| discriminate Hres].
  cbn [fst snd Inference.ok Inference.fail Inference.out] in *.
  split_and!; [reflexivity | | lia | by rewrite last_snoc].
  rewrite Hok, Hfail. unfold Inference.range. rewrite length_seq. lia.
Qed.

Lemma turns0_plain (i : nat) : plain (turns0 i).
Proof.
  split; [| by split]. intros e. cbn. destruct (Nat.even i); discriminate.
Defined.

Lemma main_tallies_every_turn_witness :
  Inference.time_sleep (Inference.sleep args3) = Return ()
  ∧ (∀ i, (i < Z.to_nat (Inference.n args3))%nat → plain (turns0 i))
  ∧ Inference.ok (Inference.main args3 turns0).2
    + Inference.fail (Inference.main args3 turns0).2
    = Z.max 0 (Inference.n args3).
Proof.
  split; [reflexivity | split; [intros i _; apply turns0_plain |]].
  exact (proj1 (proj2 (main_tallies_every_turn args3 turns0 eq_refl
                         (λ i _, turns0_plain i)))).
Defined.

(** Under the same conditions the script posts once per turn, in order, to
    the exporter URL, each time the record drawn for that turn wrapped as the
    one element of "dataframe_records". *)
Theorem main_posts_one_record_per_turn args turns :
  Inference.time_sleep (Inference.sleep args) = Return () →
  (∀ i, (i < Z.to_nat (Inference.n args))%nat → plain (turns i)) →
  List.filter is_posted (Inference.out (Inference.main args turns).2)
  = map (λ i, Inference.Posted (Inference.exporter_url args)
                (JObj [("dataframe_records", JList [Inference.record (turns i)])]))
      (Inference.range (Inference.n args)).
Proof.
  intros Hsleep Hplain. unfold Inference.main.
  destruct (loop_tally args turns (Inference.range (Inference.n args))
              {| Inference.ok := 0; Inference.fail := 0; Inference.out := [] |} Hsleep)
    as (Hres & _ & _ & Hposts).
  { intros i Hi. apply Hplain. by apply elem_of_range. }
  destruct (Inference.loop _ _ _ _) as [[[]|e] t]; [| discriminate Hres].
  cbn [fst snd Inference.out] in *.
  rewrite List.filter_app, Hposts. cbn. by rewrite app_nil_r.
Qed.

Lemma main_posts_one_record_per_turn_witness :
  Inference.time_sleep (Inference.sleep args3) = Return ()
  ∧ (∀ i, (i < Z.to_nat (Inference.n args3))%nat → plain (turns0 i))
  ∧ length (List.filter is_posted (Inference.out (Inference.main args3 turns0).2))
    = 3%nat.
Proof.
  split; [reflexivity | split; [intros i _; apply turns0_plain |]].
  rewrite (main_posts_one_record_per_turn args3 turns0 eq_refl
             (λ i _, turns0_plain i)).
  reflexivity.
Defined.

(** With a count of zero or below, the script sends nothing and prints only
    the summary, with both numbers at zero. *)
Theorem main_with_no_turns args turns :
  Inference.n args ≤ 0 →
  Inference.main args turns
  = (Return (),
     {| Inference.ok := 0;
        Inference.fail := 0;
        Inference.out :=
          [Inference.PrintedJson (JObj [("ok", JNum 0); ("fail", JNum 0)])] |}).
Proof.
  intros Hn. unfold Inference.main, Inference.range.
  replace (Z.to_nat (Inference.n args)) with O by lia. reflexivity.
Qed.

Lemma main_with_no_turns_witness :
  Inference.n args_no_turns ≤ 0
  ∧ (Inference.main args_no_turns turns0).1 = Return ().
Proof.
  assert (Hn : Inference.n args_no_turns ≤ 0) by (intros H; discriminate H).
  split; [exact Hn |].
  exact (f_equal fst (main_with_no_turns args_no_turns turns0 Hn)).
Defined.

(** When [time.sleep] accepts the pause, the turns before [k] are plain and
    the call of turn [k] raises something that is not an [Exception], the
    script stops there: the exception leaves [main], the turns before [k] are
    tallied, the post of turn [k] is the last thing done, and no summary is
    printed. *)
Theorem main_stops_at_uncaught_exception args turns k e :
  Inference.time_sleep (Inference.sleep args) = Return () →
  (k < Z.to_nat (Inference.n args))%nat →
  Inference.answer (turns k) = Raise e →
  isinstance_Exception e = false →
  (∀ i, (i < k)%nat → plain (turns i)) →
  let run := Inference.main args turns in
  run.1 = Raise e
  ∧ Inference.ok run.2 + Inference.fail run.2 = Z.of_nat k
  ∧ length (List.filter is_posted (Inference.out run.2)) = S k
  ∧ last (Inference.out run.2)
    = Some (Inference.Posted (Inference.exporter_url args)
              (JObj [("dataframe_records", JList [Inference.record (turns k)])])).
Proof.
  intros Hsleep Hk Hraise Hbase Hbefore run; subst run.
  unfold Inference.main, Inference.range.
  replace (Z.to_nat (Inference.n args))
    with (k + S (Z.to_nat (Inference.n args) - S k))%nat by lia.
  rewrite seq_app, loop_app. cbn [seq Nat.add].
  destruct (loop_tally args turns (seq 0 k)
              {| Inference.ok := 0; Inference.fail := 0; Inference.out := [] |} Hsleep)
    as (Hres & Hok & Hfail & Hposts).
  { intros i Hi. apply Hbefore. apply list_elem_of_In, in_seq in Hi. lia. }
  destruct (Inference.loop args turns (seq 0 k) _) as [[[]|e'] t];
    [| discriminate Hres].
  cbn [fst snd Inference.ok Inference.fail Inference.out] in Hok, Hfail, Hposts.
  cbn [Inference.loop]. unfold Inference.iteration. rewrite Hraise, Hbase.
  cbn [fst snd Inference.ok Inference.fail Inference.out].
  split_and!; [reflexivity | | | by rewrite last_snoc].
  - rewrite Hok, Hfail, length_seq. lia.
  - rewrite List.filter_app, Hposts. cbn.
    rewrite length_app, length_map, length_seq. cbn. lia.
Qed.

Lemma main_stops_at_uncaught_exception_witness :
  Inference.time_sleep (Inference.sleep args3) = Return ()
  ∧ (1 < Z.to_nat (Inference.n args3))%nat
  ∧ Inference.answer (turns_interrupted 1) = Raise keyboard_interrupt
  ∧ isinstance_Exception keyboard_interrupt = false
  ∧ (∀ i, (i < 1)%nat → plain (turns_interrupted i))
  ∧ (Inference.main args3 turns_interrupted).1 = Raise keyboard_interrupt.
Proof.
  assert (Hk : (1 < Z.to_nat (Inference.n args3))%nat) by (cbn; lia).
  assert (Hbefore : ∀ i, (i < 1)%nat → plain (turns_interrupted i)).
  { intros i Hi. replace i with O by lia. split; [| by split]. intros e; discriminate. }
  split; [reflexivity | split; [exact Hk | split; [reflexivity | split;
    [reflexivity | split; [exact Hbefore |]]]]].
  exact (proj1 (main_stops_at_uncaught_exception args3 turns_interrupted 1
                  keyboard_interrupt eq_refl Hk eq_refl eq_refl Hbefore)).
Defined.

(** When [time.sleep] rejects the pause (a negative number, a NaN, an
    infinity) and there is at least one turn, the script dies in its first
    turn: after the post and the printed line of that turn, the exception of
    [time.sleep] leaves [main]; one turn is tallied, one post was sent, and no
    summary is printed. *)
Theorem main_dies_on_rejected_sleep args turns e :
  Inference.time_sleep (Inference.sleep args) = Raise e →
  0 < Inference.n args →
  plain (turns O) →
  let run := Inference.main args turns in
  run.1 = Raise e
  ∧ Inference.ok run.2 + Inference.fail run.2 = 1
  ∧ length (List.filter is_posted (Inference.out run.2)) = 1%nat
  ∧ ∃ line, last (Inference.out run.2) = Some (Inference.Printed line).
Proof.
  intros Hsleep Hn Hplain run; subst run.
  unfold Inference.main, Inference.range.
  replace (Z.to_nat (Inference.n args)) with (S (Z.to_nat (Inference.n args) - 1)) by lia.
  cbn [seq Inference.loop].
  destruct (iteration_plain args O (turns O)
              {| Inference.ok := 0; Inference.fail := 0; Inference.out := [] |} Hplain)
    as (t1 & Hturn & Hok & Hfail & Hposts & Hlast).
  rewrite Hsleep in Hturn. rewrite Hturn. cbn [fst snd] in *.
  cbn [Inference.ok Inference.fail Inference.out List.filter app] in Hok, Hfail, Hposts.
  split_and!; [reflexivity | | by rewrite Hposts | exact Hlast].
  rewrite Hok, Hfail. by destruct (match Inference.answer (turns O) with
                                   | Return r => requests.ok r
                                   | Raise _ => false
                                   end).
Qed.

Lemma main_dies_on_rejected_sleep_witness :
  Inference.time_sleep (Inference.sleep args_negative_sleep)
  = Raise {| kind := KException; type_name := "ValueError";
             message := "sleep length must be non-negative" |}
  ∧ 0 < Inference.n args_negative_sleep
  ∧ plain (turns0 O)
  ∧ length (List.filter is_posted
              (Inference.out (Inference.main args_negative_sleep turns0).2)) = 1%nat.
Proof.
  assert (Hn : 0 < Inference.n args_negative_sleep) by reflexivity.
  split; [reflexivity | split; [exact Hn | split; [apply turns0_plain |]]].
  exact (proj1 (proj2 (proj2
    (main_dies_on_rejected_sleep args_negative_sleep turns0 _ eq_refl Hn
       (turns0_plain O))))).
Defined.

(** When the call of a turn returns a response but the line that reports it
    cannot be printed, the [except] clause counts the turn as a failure on top
    of what the [try] block had counted: the turn is tallied twice. *)
Theorem iteration_tallies_twice_when_print_fails args i turn t r e :
  Inference.answer turn = Return r →
  Inference.shown turn = Raise e →
  isinstance_Exception e = true →
  Inference.reported turn = Return () →
  Inference.time_sleep (Inference.sleep args) = Return () →
  let after := Inference.iteration args i turn t in
  after.1 = Return ()
  ∧ Inference.ok after.2 + Inference.fail after.2 = Inference.ok t + Inference.fail t + 2
  ∧ Inference.ok after.2 = Inference.ok t + (if requests.ok r then 1 else 0).
Proof.
  intros Hanswer Hshown He Hreported Hsleep after; subst after.
  unfold Inference.iteration. rewrite Hanswer, Hshown, He, Hreported, Hsleep.
  cbn [fst snd Inference.ok Inference.fail].
  destruct (requests.ok r); split_and!; (reflexivity || lia).
Qed.

Lemma iteration_tallies_twice_when_print_fails_witness :
  Inference.answer turn_unprinted = Return upstream3_200
  ∧ Inference.shown turn_unprinted = Raise broken_pipe
  ∧ isinstance_Exception broken_pipe = true
  ∧ Inference.reported turn_unprinted = Return ()
  ∧ Inference.time_sleep (Inference.sleep args3) = Return ()
  ∧ (Inference.iteration args3 O turn_unprinted
       {| Inference.ok := 0; Inference.fail := 0; Inference.out := [] |}).1
    = Return ().
Proof.
  split; [reflexivity | split; [reflexivity | split; [reflexivity | split;
    [reflexivity | split; [reflexivity |]]]]].
  exact (proj1 (iteration_tallies_twice_when_print_fails args3 O turn_unprinted
                  {| Inference.ok := 0; Inference.fail := 0; Inference.out := [] |}
                  upstream3_200 broken_pipe eq_refl eq_refl eq_refl eq_refl eq_refl)).
Defined.
